(** * Schedule resolution of the treatment regimen planner (app.py)

    A shallow embedding of the functions of [app.py] that derive data:
    [load_json_file], [get_treatment_courses], [create_cycle_calendar] and
    [create_treatment_timeline].  The program works on the values that
    [json.loads] returns, so the embedding works on a type of JSON values
    and writes out what Python does on each of them: a missing dictionary
    key raises [KeyError], an operation on a value of the wrong kind raises
    [TypeError], and so on.  Exceptions are results of type [result].

    What the program takes from outside is a parameter: [json.loads], the
    date that [datetime.datetime.now()] returns, the chart that plotly
    draws.  The exhaustion of memory by a very long loop is not modelled. *)

From Stdlib Require Import ZArith String Ascii DecimalString List Bool Lia.
Import ListNotations.
Open Scope string_scope.
Open Scope list_scope.
Open Scope Z_scope.
#[local] Set Warnings "-register-all".

(** ** Values *)

(** What [json.loads] returns.  A [dict] keeps its insertion order, hence an
    association list (its keys are distinct; [assoc] takes the first
    binding).  Python's [float] is left out: no JSON number with a fraction
    or an exponent is considered, and nothing below says that a number must
    be an integer where the program would take a [float] as well (the
    [days] of a [timedelta]). *)
Inductive json : Type :=
| JNull
| JBool (b : bool)
| JInt (n : Z)
| JStr (s : string)
| JList (l : list json)
| JObj (kv : list (string * json)).

(** The exceptions the program can raise.  [KeyError] carries the key. *)
Inductive exn : Type :=
| KeyError (key : string)
| TypeError
| AttributeError
| OverflowError.

Inductive result (A : Type) : Type :=
| Ok (a : A)
| Err (e : exn).
Arguments Ok {A} a.
Arguments Err {A} e.

Definition bind {A B : Type} (r : result A) (k : A -> result B) : result B :=
  match r with
  | Ok a => k a
  | Err e => Err e
  end.

Notation "x <- r ;; k" := (bind r (fun x => k))
  (at level 61, r at next level, right associativity).

(** Runs [f] on the elements from left to right and stops at the first
    exception: a [for] loop that appends one value per element. *)
Fixpoint mapM {A B : Type} (f : A -> result B) (l : list A) : result (list B) :=
  match l with
  | [] => Ok []
  | a :: l' => b <- f a ;; bs <- mapM f l' ;; Ok (b :: bs)
  end.

(** ** Python's operations on JSON values *)

Fixpoint assoc (k : string) (kv : list (string * json)) : option json :=
  match kv with
  | [] => None
  | (k', v) :: kv' => if String.eqb k k' then Some v else assoc k kv'
  end.

(** [s1 in s2] on two [str]: [s1] occurs in [s2]. *)
Fixpoint substring_of (s1 s2 : string) : bool :=
  String.prefix s1 s2 ||
  match s2 with
  | EmptyString => false
  | String _ s2' => substring_of s1 s2'
  end.

(** [x[k]] for a [str] literal [k]. *)
Definition getitem (x : json) (k : string) : result json :=
  match x with
  | JObj kv =>
      match assoc k kv with
      | Some v => Ok v
      | None => Err (KeyError k)
      end
  | _ => Err TypeError
  end.

Definition is_str (k : string) (x : json) : bool :=
  match x with
  | JStr s => String.eqb s k
  | _ => false
  end.

(** [k in x] for a [str] literal [k]: key membership in a [dict], element
    membership in a [list], occurrence in a [str]. *)
Definition contains_key (k : string) (x : json) : result bool :=
  match x with
  | JObj kv => Ok (match assoc k kv with Some _ => true | None => false end)
  | JList l => Ok (existsb (is_str k) l)
  | JStr s => Ok (substring_of k s)
  | _ => Err TypeError
  end.

(** The arithmetic value of [x] in [x + 1], [x - 1] and [range]: [bool] is a
    subclass of [int]. *)
Definition int_of (x : json) : result Z :=
  match x with
  | JInt n => Ok n
  | JBool b => Ok (if b then 1 else 0)
  | _ => Err TypeError
  end.

(** [x == n] for an [int] [n]; never raises. *)
Definition eq_int (x : json) (n : Z) : bool :=
  match x with
  | JInt m => m =? n
  | JBool b => (if b then 1 else 0) =? n
  | _ => false
  end.

(** [n in x] for an [int] [n].  The keys of a [dict] are [str], so none
    equals [n]. *)
Definition int_in (n : Z) (x : json) : result bool :=
  match x with
  | JList l => Ok (existsb (fun v => eq_int v n) l)
  | JObj _ => Ok false
  | _ => Err TypeError
  end.

(** The characters of a [str], one string each (here one per byte; the
    program never looks at more than their number being zero or not). *)
Fixpoint chars (s : string) : list json :=
  match s with
  | EmptyString => []
  | String c s' => JStr (String c EmptyString) :: chars s'
  end.

(** The elements that [for v in x] runs through: those of a [list], the keys
    of a [dict], the characters of a [str]. *)
Definition iter (x : json) : result (list json) :=
  match x with
  | JList l => Ok l
  | JObj kv => Ok (map (fun p => JStr (fst p)) kv)
  | JStr s => Ok (chars s)
  | _ => Err TypeError
  end.

(** [range(1, n + 1)]. *)
Definition range1 (n : Z) : list Z :=
  map Z.of_nat (seq 1 (Z.to_nat n)).

(** ** Loading *)

Section Loader.

(** [json.loads(uploaded_file.read())]; an exception of either call is an
    [Err]. *)
Variable json_loads : string -> result json.

(** Any exception is reported and [None] is returned. *)
Definition load_json_file (content : string) : option json :=
  match json_loads content with
  | Ok data => Some data
  | Err _ => None
  end.

End Loader.

(** Truth value of a JSON value in [if not data]. *)
Definition truthy (x : json) : bool :=
  match x with
  | JNull => false
  | JBool b => b
  | JInt n => negb (n =? 0)
  | JStr s => negb (String.eqb s "")
  | JList l => match l with [] => false | _ => true end
  | JObj kv => match kv with [] => false | _ => true end
  end.

Definition course_values (kv : list (string * json)) : list json :=
  map snd (filter (fun p => String.prefix "course" (fst p)) kv).

(** [data.items()] exists on a [dict] only. *)
Definition get_treatment_courses (data : json) : result (list json) :=
  match data with
  | JObj kv => Ok (course_values kv)
  | _ => Err AttributeError
  end.

(** The statements of [main] from the loading of the file to the courses:
    [None] when [main] returns before it has any. *)
Definition main_courses (json_loads : string -> result json) (content : string)
  : result (option (list json)) :=
  match load_json_file json_loads content with
  | None => Ok None
  | Some data =>
      if truthy data then
        courses <- get_treatment_courses data ;;
        Ok (Some courses)
      else Ok None
  end.

(** ** Cycle calendar *)

Record drug_entry : Type := mk_drug_entry {
  name : json;
  dose : json;
  route : json
}.

Record day_entry : Type := mk_day_entry {
  day : Z;
  drugs : list drug_entry;
  has_treatment : bool
}.

(** The dictionary display of the first branch; its values are evaluated in
    the order written. *)
Definition single_entry (drug : json) : result drug_entry :=
  n <- getitem drug "name" ;;
  d <- getitem drug "dose" ;;
  r <- getitem drug "route" ;;
  Ok (mk_drug_entry n d r).

(** The second branch: the dose is selected first. *)
Definition multi_entry (d : Z) (drug : json) : result drug_entry :=
  ds <- (if d >? 1 then getitem drug "maintenance_dose"
         else getitem drug "loading_dose") ;;
  n <- getitem drug "name" ;;
  r <- getitem drug "route" ;;
  Ok (mk_drug_entry n ds r).

(** ["day" in drug and drug["day"] == day] *)
Definition single_test (d : Z) (drug : json) : result bool :=
  b <- contains_key "day" drug ;;
  if b then v <- getitem drug "day" ;; Ok (eq_int v d) else Ok false.

(** ["days" in drug and day in drug["days"]] *)
Definition multi_test (d : Z) (drug : json) : result bool :=
  b <- contains_key "days" drug ;;
  if b then v <- getitem drug "days" ;; int_in d v else Ok false.

(** One pass of the inner loop body: what [drug] appends to [day_drugs]. *)
Definition drug_on_day (d : Z) (drug : json) : result (list drug_entry) :=
  s <- single_test d drug ;;
  if s then e <- single_entry drug ;; Ok [e]
  else
    m <- multi_test d drug ;;
    if m then e <- multi_entry d drug ;; Ok [e] else Ok [].

(** The inner loop: [day_drugs] when it is over. *)
Definition day_drugs (d : Z) (l : list json) : result (list drug_entry) :=
  ess <- mapM (drug_on_day d) l ;;
  Ok (concat ess).

(** One pass of the outer loop body; [course["drugs"]] is evaluated anew. *)
Definition calendar_day (course : json) (d : Z) : result day_entry :=
  ds <- getitem course "drugs" ;;
  l <- iter ds ;;
  dd <- day_drugs d l ;;
  Ok (mk_day_entry d dd (0 <? Z.of_nat (length dd))).

Definition create_cycle_calendar (course : json) (cycle_num : Z)
  : result (list day_entry) :=
  cl <- getitem course "cycle_length" ;;
  n <- int_of cl ;;
  mapM (calendar_day course) (range1 n).

(** ** Treatment timeline *)

(** A [datetime] is its proleptic Gregorian ordinal, the day number that
    [toordinal()] gives: only whole days are ever added, so the time of day
    never changes.  [datetime.min] is on day 1 and [datetime.max] on day
    [max_ordinal] (9999-12-31). *)
Definition max_ordinal : Z := 3652059.

(** [datetime.timedelta(days=n)]: the magnitude is limited. *)
Definition timedelta (n : Z) : result Z :=
  if Z.abs n <=? 999999999 then Ok n else Err OverflowError.

(** [date + delta]. *)
Definition date_add (date delta : Z) : result Z :=
  if (1 <=? date + delta) && (date + delta <=? max_ordinal)
  then Ok (date + delta)
  else Err OverflowError.

(** [date + datetime.timedelta(days=n)] *)
Definition plus_days (date n : Z) : result Z :=
  delta <- timedelta n ;; date_add date delta.

(** [str(n)] for an [int]. *)
Definition str (n : Z) : string := NilZero.string_of_int (Z.to_int n).

Record event : Type := mk_event {
  Course : json;
  Cycle : string;
  Drug : json;
  Start : Z;
  Finish : Z
}.

(** The five statements that both branches share: the two dates, then the
    dictionary display, in which only [drug["name"]] can raise.
    [d] is [drug["day"]] or a member of [drug["days"]]. *)
Definition append_event (course_name : json) (cycle cycle_start : Z)
    (drug d : json) : result event :=
  n <- int_of d ;;
  drug_start <- plus_days cycle_start (n - 1) ;;
  drug_end <- plus_days drug_start 1 ;;
  nm <- getitem drug "name" ;;
  Ok (mk_event course_name ("Cycle " ++ str cycle)%string nm drug_start drug_end).

(** The body of the loop over the drugs. *)
Definition drug_events (course_name : json) (cycle cycle_start : Z)
    (drug : json) : result (list event) :=
  b <- contains_key "day" drug ;;
  if b then
    d <- getitem drug "day" ;;
    e <- append_event course_name cycle cycle_start drug d ;;
    Ok [e]
  else
    b' <- contains_key "days" drug ;;
    if b' then
      ds <- getitem drug "days" ;;
      l <- iter ds ;;
      mapM (append_event course_name cycle cycle_start drug) l
    else Ok [].

(** The body of the loop over the cycles.  In [(cycle-1)*cycle_length] a
    [str] or a [list] would be repeated and then refused by [timedelta];
    every operand that is not an [int] ends in [TypeError]. *)
Definition cycle_events (course course_name cycle_length : json)
    (current_date cycle : Z) : result (list event) :=
  len <- int_of cycle_length ;;
  cycle_start <- plus_days current_date ((cycle - 1) * len) ;;
  ds <- getitem course "drugs" ;;
  l <- iter ds ;;
  ess <- mapM (drug_events course_name cycle cycle_start) l ;;
  Ok (concat ess).

(** [current_date += timedelta(days=previous_course["cycles"] *
    previous_course["cycle_length"])], for every course but the first. *)
Definition advance (previous_course : option json) (current_date : Z)
  : result Z :=
  match previous_course with
  | None => Ok current_date
  | Some p =>
      a <- getitem p "cycles" ;;
      b <- getitem p "cycle_length" ;;
      m <- int_of a ;;
      n <- int_of b ;;
      plus_days current_date (m * n)
  end.

(** The loop over the courses; [previous_course] is [courses[course_idx-1]]
    and the result is what the passes append to [timeline_data]. *)
Fixpoint courses_loop (previous_course : option json) (current_date : Z)
    (courses : list json) : result (list event) :=
  match courses with
  | [] => Ok []
  | course :: rest =>
      course_name <- getitem course "name" ;;
      cycle_length <- getitem course "cycle_length" ;;
      num_cycles <- getitem course "cycles" ;;
      current_date' <- advance previous_course current_date ;;
      n <- int_of num_cycles ;;
      ess <- mapM (cycle_events course course_name cycle_length current_date')
                  (range1 n) ;;
      later <- courses_loop (Some course) current_date' rest ;;
      Ok (concat ess ++ later)
  end.

(** [timeline_data] when the loops are over; [now] is what
    [datetime.datetime.now()] returned. *)
Definition timeline_data (courses : list json) (now : Z) : result (list event) :=
  courses_loop None now courses.

Section Figure.

(** The chart that plotly builds from the data frame of the events, or the
    exception that it raises on them (a name that is a list cannot be a
    colour key).  It is not called on an empty list. *)
Variable Fig : Type.
Variable px_timeline : list event -> result Fig.


End Figure.

(** ** Display of the calendar *)

(** The calls of streamlit that put text on the page. *)
Inductive call : Type :=
| markdown (text : string)
| write (text : string).

(** What [display_cycle_calendar] puts on the page, in order: the row of
    columns, a bordered container in the column of that index with the calls
    made inside it, a call made outside the columns. *)
Inductive block : Type :=
| columns (n : nat)
| container (column : nat) (calls : list call)
| outside (c : call).

(** Text of the source that is not ASCII, as its bytes in UTF-8. *)
Definition utf8 (bytes : list nat) : string :=
  fold_right (fun b s => String (ascii_of_nat b) s) EmptyString bytes.

Definition hospital : string := utf8 [240; 159; 143; 165]%nat.
Definition pill : string := utf8 [240; 159; 146; 138]%nat.
Definition newline : string := utf8 [10%nat].
Definition indent : string := "                        ".

Section Display.

(** The text that an f-string puts in place of a value of the course. *)
Variable format : json -> string.

(** The triple-quoted f-string of a drug, line by line. *)
Definition drug_text (de : drug_entry) : string :=
  (newline ++
   indent ++ pill ++ " **" ++ format (name de) ++ "**  " ++ newline ++
   indent ++ "Dose: " ++ format (dose de) ++ "  " ++ newline ++
   indent ++ "Route: " ++ format (route de) ++ newline ++
   indent)%string.

(** The calls inside the container of a day. *)
Definition day_calls (e : day_entry) : list call :=
  markdown (if has_treatment e
            then ("**Day " ++ str (day e) ++ "** " ++ hospital)%string
            else ("**Day " ++ str (day e) ++ "**")%string)
  :: match drugs e with
     | [] => [write "No treatments"]
     | ds => map (fun de => markdown (drug_text de)) ds
     end.

(** The loop over [enumerate(calendar_data)], from the index [idx] on. *)
Fixpoint day_blocks (idx : nat) (cal : list day_entry) : list block :=
  match cal with
  | [] => []
  | e :: rest =>
      container (idx mod 7) (day_calls e)
      :: (if ((idx + 1) mod 7 =? 0)%nat then [outside (write "")] else [])
      ++ day_blocks (S idx) rest
  end.

Definition display_cycle_calendar (course : json) (cycle_num : Z)
  : result (list block) :=
  calendar_data <- create_cycle_calendar course cycle_num ;;
  Ok (columns 7 :: day_blocks 0 calendar_data).

(** The page described by the day numbers alone: the container of day [d]
    is in column [(d - 1) mod 7] and a break follows every seventh day. *)
Definition week_layout (cal : list day_entry) : list block :=
  flat_map (fun e =>
              container (Z.to_nat ((day e - 1) mod 7)) (day_calls e)
              :: (if day e mod 7 =? 0 then [outside (write "")] else []))
           cal.

End Display.

(** ** The shapes of the data model *)

Definition has (k : string) (kv : list (string * json)) : bool :=
  match assoc k kv with
  | Some _ => true
  | None => false
  end.

Definition is_int (x : json) : bool :=
  match x with
  | JInt _ => true
  | _ => false
  end.

(** A record with a [day] and no [days], or with a list [days] and no [day];
    nothing is asked of the other fields. *)
Definition typed_drug (drug : json) : bool :=
  match drug with
  | JObj kv =>
      match assoc "day" kv, assoc "days" kv with
      | Some (JInt _), None => true
      | None, Some (JList l) => forallb is_int l
      | _, _ => false
      end
  | _ => false
  end.

(** The fields that the shape of the drug requires. *)
Definition required (drug : json) : list string :=
  match drug with
  | JObj kv =>
      if has "day" kv then ["name"; "dose"; "route"]
      else ["name"; "route"; "loading_dose"; "maintenance_dose"]
  | _ => []
  end.

Definition has_all (ks : list string) (x : json) : bool :=
  match x with
  | JObj kv => forallb (fun k => has k kv) ks
  | _ => false
  end.

Definition wf_drug (drug : json) : bool :=
  typed_drug drug && has_all (required drug) drug.

(** A course record: a name, integer [cycle_length] and [cycles], a list of
    drugs.  The ranges of section 3 are separate conditions. *)
Definition course_of (drug_ok : json -> bool) (course : json) : bool :=
  match course with
  | JObj kv =>
      has "name" kv &&
      match assoc "cycle_length" kv, assoc "cycles" kv, assoc "drugs" kv with
      | Some (JInt _), Some (JInt _), Some (JList ds) => forallb drug_ok ds
      | _, _, _ => false
      end
  | _ => false
  end.

Definition typed_course : json -> bool := course_of typed_drug.
Definition wf_course : json -> bool := course_of wf_drug.

(** Reading a record: the value of a field, and of an integer field. *)
Definition field (x : json) (k : string) : json :=
  match getitem x k with
  | Ok v => v
  | Err _ => JNull
  end.

Definition int_field (x : json) (k : string) : Z :=
  match int_of (field x k) with
  | Ok n => n
  | Err _ => 0
  end.

Definition drugs_of (course : json) : list json :=
  match field course "drugs" with
  | JList ds => ds
  | _ => []
  end.

(** ** Section 4.2 of the specification, in its own words

    A drug is included on day [d] by the rule of its shape; the dose of a
    multi-day drug is the loading dose on day 1 and the maintenance dose on
    any other day. *)

Definition spec_included (d : Z) (drug : json) : bool :=
  match drug with
  | JObj kv =>
      match assoc "day" kv with
      | Some v => eq_int v d
      | None =>
          match assoc "days" kv with
          | Some (JList l) => existsb (fun v => eq_int v d) l
          | _ => false
          end
      end
  | _ => false
  end.

Definition spec_dose (d : Z) (drug : json) : json :=
  match drug with
  | JObj kv =>
      if has "day" kv then field drug "dose"
      else if d =? 1 then field drug "loading_dose"
      else field drug "maintenance_dose"
  | _ => JNull
  end.

Definition spec_entry (d : Z) (drug : json) : drug_entry :=
  mk_drug_entry (field drug "name") (spec_dose d drug) (field drug "route").

Definition spec_day (ds : list json) (d : Z) : day_entry :=
  mk_day_entry d (map (spec_entry d) (filter (spec_included d) ds))
               (existsb (spec_included d) ds).

Definition spec_resolve_cycle (course : json) : list day_entry :=
  map (spec_day (drugs_of course)) (range1 (int_field course "cycle_length")).

(** ** Section 4.3 of the specification, in its own words

    The first course starts on the anchor date and every later course when
    the cycles of the course before it are over; cycle [c] of a course
    starts [(c - 1) * cycle_length] days into the course; the event of
    administration day [d] starts [d - 1] days into its cycle and ends one
    day later. *)

Definition span (course : json) : Z :=
  int_field course "cycles" * int_field course "cycle_length".

Fixpoint spec_course_start (now : Z) (courses : list json) (i : nat) : Z :=
  match i with
  | O => now
  | S j => spec_course_start now courses j + span (nth j courses JNull)
  end.

Definition spec_cycle_start (course_start : Z) (course : json) (c : Z) : Z :=
  course_start + (c - 1) * int_field course "cycle_length".

Definition int_val (v : json) : Z :=
  match int_of v with
  | Ok n => n
  | Err _ => 0
  end.

(** The administration days of a drug, in the order of the record. *)
Definition spec_admin_days (drug : json) : list Z :=
  match drug with
  | JObj kv =>
      match assoc "day" kv with
      | Some v => [int_val v]
      | None =>
          match assoc "days" kv with
          | Some (JList l) => map int_val l
          | _ => []
          end
      end
  | _ => []
  end.

Definition spec_event (course : json) (c cycle_start : Z) (drug : json) (d : Z)
  : event :=
  mk_event (field course "name") ("Cycle " ++ str c)%string (field drug "name")
           (cycle_start + (d - 1)) (cycle_start + (d - 1) + 1).

Definition spec_cycle_events (course : json) (course_start c : Z) : list event :=
  flat_map (fun drug =>
              map (spec_event course c (spec_cycle_start course_start course c) drug)
                  (spec_admin_days drug))
           (drugs_of course).

Definition spec_course_events (course : json) (course_start : Z) : list event :=
  flat_map (spec_cycle_events course course_start)
           (range1 (int_field course "cycles")).

Definition spec_timeline (courses : list json) (now : Z) : list event :=
  flat_map (fun i => spec_course_events (nth i courses JNull)
                                        (spec_course_start now courses i))
           (seq 0 (length courses)).

(** The same events, course after course: the courses of [courses] when
    the first of them starts on [start]. *)
Fixpoint events_from (start : Z) (courses : list json) : list event :=
  match courses with
  | [] => []
  | course :: rest =>
      spec_course_events course start ++ events_from (start + span course) rest
  end.

Definition span_of (previous_course : option json) : Z :=
  match previous_course with
  | None => 0
  | Some p => span p
  end.

(** The ranges of section 3: positive [cycle_length] and [cycles], every day
    of a drug within the cycle. *)
Definition day_in_range (n : Z) (v : json) : bool :=
  match v with
  | JInt d => (1 <=? d) && (d <=? n)
  | _ => false
  end.

Definition drug_in_range (n : Z) (drug : json) : bool :=
  match drug with
  | JObj kv =>
      match assoc "day" kv with
      | Some v => day_in_range n v
      | None =>
          match assoc "days" kv with
          | Some (JList l) => forallb (day_in_range n) l
          | _ => true
          end
      end
  | _ => true
  end.

Definition course_in_range (course : json) : bool :=
  (1 <=? int_field course "cycle_length") &&
  (1 <=? int_field course "cycles") &&
  forallb (drug_in_range (int_field course "cycle_length")) (drugs_of course).

Definition total_span (courses : list json) : Z :=
  fold_right (fun course acc => span course + acc) 0 courses.

(** A regimen of the data model that ends within the calendar of
    [datetime]. *)
Definition regimen_ok (courses : list json) (now : Z) : Prop :=
  forallb wf_course courses = true /\
  forallb course_in_range courses = true /\
  1 <= now /\ now + total_span courses <= max_ordinal.

(** The fields of a drug that [create_cycle_calendar] reads on day [d]:
    none unless the drug is included on that day. *)
Definition fields_read (d : Z) (drug : json) : list string :=
  match drug with
  | JObj kv =>
      if spec_included d drug then
        if has "day" kv then ["name"; "dose"; "route"]
        else [if d >? 1 then "maintenance_dose" else "loading_dose";
              "name"; "route"]
      else []
  | _ => []
  end.

(** A record without the field [k]. *)
Definition remove (k : string) (kv : list (string * json)) : list (string * json) :=
  filter (fun p => negb (String.eqb k (fst p))) kv.


(** An event moved by [k] days. *)
Definition shift_event (k : Z) (e : event) : event :=
  mk_event (Course e) (Cycle e) (Drug e) (Start e + k) (Finish e + k).

(** The number of administration days of the drugs of a course in one
    cycle, as the timeline counts them. *)
Definition admin_count (course : json) : nat :=
  list_sum (map (fun drug => length (spec_admin_days drug)) (drugs_of course)).

(** A date that [datetime] can hold. *)
Definition valid_date (d : Z) : Prop := 1 <= d <= max_ordinal.

(** An event of one day between two dates that [datetime] can hold. *)
Definition one_day (e : event) : Prop :=
  Finish e = Start e + 1 /\ valid_date (Start e) /\ valid_date (Finish e).



(** ** Examples *)

(** The course of section 8 of the specification. *)
Definition ac : json :=
  JObj [("name", JStr "AC"); ("cycle_length", JInt 21); ("cycles", JInt 4);
        ("drugs", JList [JObj [("name", JStr "Doxorubicin"); ("day", JInt 1);
                               ("dose", JStr "60mg/m2"); ("route", JStr "IV")]])].

(** A multi-day drug given on the days 3 and 5 of a cycle of 7 days. *)
Definition trastuzumab : list (string * json) :=
  [("name", JStr "Trastuzumab"); ("route", JStr "IV");
   ("days", JList [JInt 3; JInt 5]);
   ("loading_dose", JStr "8mg/kg"); ("maintenance_dose", JStr "6mg/kg")].

Definition th : json :=
  JObj [("name", JStr "TH"); ("cycle_length", JInt 7); ("cycles", JInt 2);
        ("drugs", JList [JObj trastuzumab])].

(** 2024-01-01 as an ordinal. *)
Definition jan_1_2024 : Z := 738886.

(** A record with both a [day] and a list [days]. *)
Definition both_shapes : json :=
  JObj [("name", JStr "X"); ("route", JStr "IV"); ("day", JInt 1);
        ("dose", JStr "10mg"); ("days", JList [JInt 1; JInt 3]);
        ("loading_dose", JStr "8mg"); ("maintenance_dose", JStr "6mg")].

Definition course_both : json :=
  JObj [("name", JStr "B"); ("cycle_length", JInt 3); ("cycles", JInt 1);
        ("drugs", JList [both_shapes])].

(** A multi-day drug that is never given and has no route. *)
Definition never_given : json :=
  JObj [("name", JStr "X"); ("days", JList []);
        ("loading_dose", JStr "8mg"); ("maintenance_dose", JStr "6mg")].

(** A single-day drug without a dose. *)
Definition no_dose (nm : string) : json :=
  JObj [("name", JStr nm); ("day", JInt 1); ("route", JStr "IV")].

(** A single-day drug on day 5. *)
Definition day_5 : json :=
  JObj [("name", JStr "X"); ("day", JInt 5); ("dose", JStr "10mg");
        ("route", JStr "IV")].

Definition course_with (cycle_length cycles : Z) (ds : list json) : json :=
  JObj [("name", JStr "C"); ("cycle_length", JInt cycle_length);
        ("cycles", JInt cycles); ("drugs", JList ds)].


(** The course [th] whose drug has no loading dose. *)
Definition th_no_loading : json :=
  JObj [("name", JStr "TH"); ("cycle_length", JInt 7); ("cycles", JInt 2);
        ("drugs", JList [JObj (remove "loading_dose" trastuzumab)])].

(** A multi-day drug given on the days 1 and 3. *)
Definition pertuzumab : json :=
  JObj [("name", JStr "Pertuzumab"); ("route", JStr "IV");
        ("days", JList [JInt 1; JInt 3]);
        ("loading_dose", JStr "840mg"); ("maintenance_dose", JStr "420mg")].

(** ** The monad and the loops *)

Lemma bind_Ok {A B : Type} (r : result A) (k : A -> result B) (b : B) :
  bind r k = Ok b -> exists a, r = Ok a /\ k a = Ok b.
Proof.
  destruct r as [a | e]; simpl; intros H.
  - exists a; split; [reflexivity | exact H].
  - discriminate H.
Qed.

Lemma bind_Err {A B : Type} (r : result A) (k : A -> result B) (e : exn) :
  bind r k = Err e -> r = Err e \/ exists a, r = Ok a /\ k a = Err e.
Proof.
  destruct r as [a | e']; simpl; intros H.
  - right; exists a; split; [reflexivity | exact H].
  - left; congruence.
Qed.

Ltac inv_bind H :=
  let a := fresh "v" in
  let E := fresh "E" in
  apply bind_Ok in H; destruct H as (a & E & H).

Ltac inv_Ok H := injection H as H; subst.

Lemma mapM_pure {A B : Type} (f : A -> result B) (g : A -> B) (l : list A) :
  (forall a, In a l -> f a = Ok (g a)) -> mapM f l = Ok (map g l).
Proof.
  induction l as [| a l IH]; simpl; intros H; [reflexivity |].
  rewrite (H a) by (left; reflexivity); simpl.
  rewrite IH by (intros; apply H; right; assumption).
  reflexivity.
Qed.

Lemma mapM_ext {A B : Type} (f g : A -> result B) (l : list A) :
  (forall a, In a l -> f a = g a) -> mapM f l = mapM g l.
Proof.
  induction l as [| a l IH]; simpl; intros H; [reflexivity |].
  rewrite (H a) by (left; reflexivity).
  rewrite IH by (intros; apply H; right; assumption).
  reflexivity.
Qed.

Lemma mapM_Forall2 {A B : Type} (f : A -> result B) (l : list A) (bs : list B) :
  mapM f l = Ok bs -> Forall2 (fun a b => f a = Ok b) l bs.
Proof.
  revert bs; induction l as [| a l IH]; simpl; intros bs H.
  - inv_Ok H; constructor.
  - inv_bind H. inv_bind H. inv_Ok H. constructor; auto.
Qed.

Lemma mapM_app {A B : Type} (f : A -> result B) (l1 l2 : list A) (bs : list B) :
  mapM f (l1 ++ l2) = Ok bs ->
  exists bs1 bs2, mapM f l1 = Ok bs1 /\ mapM f l2 = Ok bs2 /\ bs = bs1 ++ bs2.
Proof.
  revert bs; induction l1 as [| a l1 IH]; simpl; intros bs H.
  - exists [], bs; auto.
  - inv_bind H. inv_bind H. inv_Ok H.
    destruct (IH _ E0) as (bs1 & bs2 & H1 & H2 & ->).
    exists (v :: bs1), bs2. rewrite E, H1; simpl; auto.
Qed.

Lemma mapM_Err {A B : Type} (f : A -> result B) (l : list A) (e : exn) :
  mapM f l = Err e -> exists a, In a l /\ f a = Err e.
Proof.
  induction l as [| a l IH]; simpl; intros H; [discriminate |].
  apply bind_Err in H; destruct H as [H | (b & Hb & H)].
  - exists a; auto.
  - apply bind_Err in H; destruct H as [H | (bs & _ & H)]; [| discriminate].
    destruct (IH H) as (a' & Hin & Ha'); exists a'; auto.
Qed.

Lemma mapM_Ok_In {A B : Type} (f : A -> result B) (l : list A) (bs : list B) :
  mapM f l = Ok bs -> forall a, In a l -> exists b, f a = Ok b /\ In b bs.
Proof.
  intros H; apply mapM_Forall2 in H.
  induction H as [| a b l bs Hab _ IH]; intros a' [].
  - subst; exists b; split; [assumption | left; reflexivity].
  - destruct (IH a' H) as (b' & ? & ?); exists b'; split; [| right]; assumption.
Qed.

Lemma In_range1 (n d : Z) : In d (range1 n) <-> 1 <= d <= n.
Proof.
  unfold range1; rewrite in_map_iff; split.
  - intros (k & <- & Hk); apply in_seq in Hk; lia.
  - intros H; exists (Z.to_nat d); split; [lia | apply in_seq; lia].
Qed.

Lemma length_range1 (n : Z) : length (range1 n) = Z.to_nat n.
Proof. unfold range1; rewrite length_map, length_seq; reflexivity. Qed.

Lemma nth_error_range1 (n : Z) (i : nat) (d : Z) :
  nth_error (range1 n) i = Some d <-> d = Z.of_nat (S i) /\ d <= n.
Proof.
  unfold range1; rewrite nth_error_map; split.
  - destruct (nth_error (seq 1 (Z.to_nat n)) i) as [k |] eqn:E; simpl; [| discriminate].
    intros H; injection H as <-.
    assert (Hi : (i < length (seq 1 (Z.to_nat n)))%nat)
      by (apply nth_error_Some; congruence).
    rewrite length_seq in Hi.
    rewrite (nth_error_nth' _ 0%nat) in E by (rewrite length_seq; exact Hi).
    rewrite seq_nth in E by exact Hi. injection E as <-. lia.
  - intros [-> Hn].
    assert (Hi : (i < Z.to_nat n)%nat) by lia.
    rewrite (nth_error_nth' _ 0%nat) by (rewrite length_seq; exact Hi).
    rewrite seq_nth by exact Hi. reflexivity.
Qed.

Lemma Forall2_nth_error {A B : Type} (R : A -> B -> Prop) (l : list A) (l' : list B) :
  Forall2 R l l' ->
  forall i, match nth_error l i, nth_error l' i with
            | Some a, Some b => R a b
            | None, None => True
            | _, _ => False
            end.
Proof.
  induction 1 as [| a b l l' Hab _ IH]; intros [| i]; simpl; auto.
  apply IH.
Qed.

Lemma concat_filter_map {A B : Type} (p : A -> bool) (g : A -> B) (l : list A) :
  concat (map (fun a => if p a then [g a] else []) l) = map g (filter p l).
Proof.
  induction l as [| a l IH]; simpl; [reflexivity |].
  destruct (p a); simpl; rewrite IH; reflexivity.
Qed.

(** ** The calendar on well-formed courses *)

Lemma has_true (k : string) (kv : list (string * json)) :
  has k kv = true -> exists v, assoc k kv = Some v.
Proof. unfold has; destruct (assoc k kv) as [v |]; [eauto | discriminate]. Qed.

Lemma drug_on_day_wf (d : Z) (drug : json) :
  1 <= d -> wf_drug drug = true ->
  drug_on_day d drug = Ok (if spec_included d drug then [spec_entry d drug] else []).
Proof.
  intros Hd; destruct drug as [| | | | | kv]; try discriminate.
  unfold wf_drug, typed_drug, required, has_all, spec_included, spec_entry, spec_dose.
  unfold drug_on_day, single_test, multi_test, single_entry, multi_entry.
  unfold field, getitem, contains_key, has; simpl.
  destruct (assoc "day" kv) as [[| | n | | |] |] eqn:Hday; try discriminate.
  - destruct (assoc "days" kv) eqn:Hdays; try discriminate; simpl.
    destruct (assoc "name" kv), (assoc "dose" kv), (assoc "route" kv);
      try discriminate; intros _.
    destruct (n =? d); reflexivity.
  - destruct (assoc "days" kv) as [[| | | | l |] |] eqn:Hdays; try discriminate; simpl.
    destruct (assoc "name" kv), (assoc "route" kv), (assoc "loading_dose" kv),
      (assoc "maintenance_dose" kv); rewrite ?andb_false_r; try discriminate; intros _.
    destruct (existsb _ l); [| reflexivity].
    destruct (Z.gtb_spec d 1), (Z.eqb_spec d 1); try lia; reflexivity.
Qed.

Lemma day_drugs_wf (d : Z) (ds : list json) :
  1 <= d -> forallb wf_drug ds = true ->
  day_drugs d ds = Ok (map (spec_entry d) (filter (spec_included d) ds)).
Proof.
  intros Hd Hds; unfold day_drugs.
  rewrite (mapM_pure _ (fun drug => if spec_included d drug
                                   then [spec_entry d drug] else [])).
  - simpl; rewrite concat_filter_map; reflexivity.
  - intros drug Hin; apply drug_on_day_wf; [exact Hd |].
    rewrite forallb_forall in Hds; auto.
Qed.

Lemma length_filter_existsb {A : Type} (p : A -> bool) (l : list A) :
  (0 <? Z.of_nat (length (filter p l))) = existsb p l.
Proof.
  induction l as [| a l IH]; simpl; [reflexivity |].
  destruct (p a); simpl; [| exact IH].
  apply Z.ltb_lt; lia.
Qed.

Lemma course_of_inv (drug_ok : json -> bool) (course : json) :
  course_of drug_ok course = true ->
  exists kv nm n c ds,
    course = JObj kv /\ assoc "name" kv = Some nm /\
    assoc "cycle_length" kv = Some (JInt n) /\
    assoc "cycles" kv = Some (JInt c) /\
    assoc "drugs" kv = Some (JList ds) /\ forallb drug_ok ds = true.
Proof.
  destruct course as [| | | | | kv]; try discriminate.
  unfold course_of; intros H.
  apply andb_prop in H; destruct H as [Hn H].
  apply has_true in Hn; destruct Hn as [nm Hn].
  destruct (assoc "cycle_length" kv) as [[| | n | | |] |] eqn:E1; try discriminate.
  destruct (assoc "cycles" kv) as [[| | c | | |] |] eqn:E2; try discriminate.
  destruct (assoc "drugs" kv) as [[| | | | ds |] |] eqn:E3; try discriminate.
  exists kv, nm, n, c, ds; repeat split; auto.
Qed.

Lemma wf_course_inv (course : json) :
  wf_course course = true ->
  exists kv nm n c ds,
    course = JObj kv /\ assoc "name" kv = Some nm /\
    assoc "cycle_length" kv = Some (JInt n) /\
    assoc "cycles" kv = Some (JInt c) /\
    assoc "drugs" kv = Some (JList ds) /\ forallb wf_drug ds = true.
Proof. apply course_of_inv. Qed.

(** On a well-formed course the code computes what section 4.2 says. *)
Lemma calendar_refines (course : json) (cycle_num : Z) :
  wf_course course = true ->
  create_cycle_calendar course cycle_num = Ok (spec_resolve_cycle course).
Proof.
  intros H; destruct (wf_course_inv _ H) as (kv & nm & n & c & ds & -> & _ & Hn & _ & Hds & Hwf).
  unfold create_cycle_calendar, spec_resolve_cycle, int_field, drugs_of, field, getitem.
  rewrite Hn, Hds; simpl.
  apply mapM_pure; intros d Hd; apply In_range1 in Hd.
  unfold calendar_day, getitem; rewrite Hds; simpl.
  rewrite day_drugs_wf by (lia || assumption); simpl.
  unfold spec_day; rewrite length_map, length_filter_existsb; reflexivity.
Qed.

(** The examples of section 8 of the specification. *)

Example str_21 : str 21 = "21".
Proof. reflexivity. Qed.

Example ac_calendar :
  exists cal,
    create_cycle_calendar ac 1 = Ok cal /\
    length cal = 21%nat /\
    map day (filter has_treatment cal) = [1].
Proof. eexists; repeat split. Qed.

Example ac_timeline :
  exists evs,
    timeline_data [ac] jan_1_2024 = Ok evs /\
    map Start evs = [jan_1_2024; jan_1_2024 + 21; jan_1_2024 + 42; jan_1_2024 + 63] /\
    map Cycle evs = ["Cycle 1"; "Cycle 2"; "Cycle 3"; "Cycle 4"].
Proof. eexists; repeat split. Qed.

Example loading_then_maintenance :
  create_cycle_calendar (course_with 3 1 [pertuzumab]) 1 =
    Ok [mk_day_entry 1 [mk_drug_entry (JStr "Pertuzumab") (JStr "840mg") (JStr "IV")] true;
        mk_day_entry 2 [] false;
        mk_day_entry 3 [mk_drug_entry (JStr "Pertuzumab") (JStr "420mg") (JStr "IV")] true].
Proof. reflexivity. Qed.

(** ** The cycle calendar: claims *)

(** C3.  On a well-formed course whose [cycle_length] is at least 1, and for
    every cycle number, [create_cycle_calendar] returns a list of exactly
    [cycle_length] entries; the entry at position [i] (from 0) has day
    [i + 1], so the days are 1..cycle_length in increasing order; and the
    flag [has_treatment] of an entry is true exactly when its list of drugs
    is not empty, which is exactly when some drug of the course is included
    on that day. *)
Theorem cycle_calendar_shape (course : json) (cycle_num : Z) :
  wf_course course = true ->
  1 <= int_field course "cycle_length" ->
  exists cal,
    create_cycle_calendar course cycle_num = Ok cal /\
    Z.of_nat (length cal) = int_field course "cycle_length" /\
    (forall i e, nth_error cal i = Some e -> day e = Z.of_nat i + 1) /\
    (forall e, In e cal ->
       (has_treatment e = true <-> drugs e <> []) /\
       (has_treatment e = true <->
        exists drug, In drug (drugs_of course) /\
                     spec_included (day e) drug = true)).
Proof.
  intros Hwf Hn; exists (spec_resolve_cycle course).
  split; [apply calendar_refines; exact Hwf |].
  unfold spec_resolve_cycle; split; [| split].
  - rewrite length_map, length_range1; lia.
  - intros i e He; rewrite nth_error_map in He.
    destruct (nth_error (range1 _) i) as [d |] eqn:Hd; [| discriminate].
    apply nth_error_range1 in Hd; destruct Hd as [-> _].
    injection He as <-; simpl; lia.
  - intros e He; apply in_map_iff in He; destruct He as (d & <- & _); simpl.
    rewrite existsb_exists; split; [| tauto].
    destruct (filter (spec_included d) (drugs_of course)) as [| drug l] eqn:Hf; simpl.
    + split; [| congruence].
      intros (drug & Hin & Hinc).
      assert (H : In drug (filter (spec_included d) (drugs_of course)))
        by (apply filter_In; auto).
      rewrite Hf in H; destruct H.
    + split; [discriminate | intros _].
      assert (H : In drug (filter (spec_included d) (drugs_of course)))
        by (rewrite Hf; left; reflexivity).
      apply filter_In in H; exists drug; exact H.
Qed.

(** C4.  The cycle number has no effect on the calendar of a course: for
    all cycle numbers [c1] and [c2] the results are equal, whether they are
    calendars or exceptions. *)
Theorem cycle_number_invariant (course : json) (c1 c2 : Z) :
  create_cycle_calendar course c1 = create_cycle_calendar course c2.
Proof. reflexivity. Qed.

Lemma calendar_nth (course : json) (cycle_num n d : Z) (cl : json) (cal : list day_entry) :
  create_cycle_calendar course cycle_num = Ok cal ->
  getitem course "cycle_length" = Ok cl -> int_of cl = Ok n ->
  1 <= d <= n ->
  exists e, nth_error cal (Z.to_nat (d - 1)) = Some e /\ calendar_day course d = Ok e.
Proof.
  unfold create_cycle_calendar; intros H Hcl Hn Hd.
  rewrite Hcl in H; simpl in H; rewrite Hn in H; simpl in H.
  apply mapM_Forall2 in H.
  pose proof (Forall2_nth_error _ _ _ H (Z.to_nat (d - 1))) as Hi.
  assert (Hr : nth_error (range1 n) (Z.to_nat (d - 1)) = Some d)
    by (apply nth_error_range1; lia).
  rewrite Hr in Hi.
  destruct (nth_error cal (Z.to_nat (d - 1))) as [e |]; [| destruct Hi].
  exists e; auto.
Qed.

Lemma day_drugs_middle (d : Z) (pre post : list json) (drug : json) (dd : list drug_entry) :
  day_drugs d (pre ++ drug :: post) = Ok dd ->
  exists before es after,
    day_drugs d pre = Ok before /\ drug_on_day d drug = Ok es /\
    day_drugs d post = Ok after /\ dd = before ++ es ++ after.
Proof.
  unfold day_drugs; intros H; inv_bind H; inv_Ok H.
  apply mapM_app in E; destruct E as (b1 & b2 & H1 & H2 & ->).
  simpl in H2; inv_bind H2; inv_bind H2; inv_Ok H2.
  exists (concat b1), v, (concat v0).
  rewrite H1, E, E0; simpl; rewrite concat_app; auto.
Qed.

(** C1.  Take a course whose list of drugs holds, between [pre] and [post],
    a multi-day drug (a record with a list [days] and no [day]), and a day
    [d] of the cycle, [1 <= d <= cycle_length], that occurs in [days].  In a
    calendar that [create_cycle_calendar] returns, the entry at position
    [d - 1] is the one of day [d]; it holds, after what [pre] contributes
    and before what [post] contributes, one entry of the drug, with the
    drug's name and route, whose dose is the drug's [loading_dose] when
    [d = 1] and its [maintenance_dose] otherwise.  In particular when 1 does
    not occur in [days], as for the days 3 and 5, every entry of the drug
    carries the maintenance dose.  On a well-formed course a calendar is
    returned. *)
Theorem multi_day_dose (course : json) (cycle_num n d : Z)
    (pre post : list json) (kv : list (string * json)) (days : list json) :
  getitem course "cycle_length" = Ok (JInt n) ->
  getitem course "drugs" = Ok (JList (pre ++ JObj kv :: post)) ->
  assoc "day" kv = None ->
  assoc "days" kv = Some (JList days) ->
  existsb (fun v => eq_int v d) days = true ->
  1 <= d <= n ->
  (wf_course course = true ->
   exists cal, create_cycle_calendar course cycle_num = Ok cal) /\
  forall cal, create_cycle_calendar course cycle_num = Ok cal ->
    exists before e after,
      nth_error cal (Z.to_nat (d - 1)) =
        Some (mk_day_entry d (before ++ e :: after) true) /\
      day_drugs d pre = Ok before /\
      day_drugs d post = Ok after /\
      getitem (JObj kv) "name" = Ok (name e) /\
      getitem (JObj kv) "route" = Ok (route e) /\
      getitem (JObj kv) (if d =? 1 then "loading_dose" else "maintenance_dose")
        = Ok (dose e) /\
      (existsb (fun v => eq_int v 1) days = false ->
       getitem (JObj kv) "maintenance_dose" = Ok (dose e)).
Proof.
  intros Hcl Hds Hday Hdays Hin Hd; split.
  { intros Hwf; eexists; apply calendar_refines; exact Hwf. }
  intros cal Hcal.
  destruct (calendar_nth _ _ n d _ _ Hcal Hcl eq_refl Hd) as (e & Hnth & He).
  unfold calendar_day in He; rewrite Hds in He; simpl in He.
  inv_bind He; inv_Ok He.
  apply day_drugs_middle in E; destruct E as (before & es & after & Hb & Hes & Ha & ->).
  unfold drug_on_day, single_test, multi_test in Hes; simpl in Hes.
  rewrite Hday, Hdays in Hes; simpl in Hes; rewrite Hin in Hes.
  inv_bind Hes. inv_Ok Hes.
  exists before, v, after; rewrite Hnth, Hb, Ha.
  assert (Hpos : (0 <? Z.of_nat (length (before ++ [v] ++ after))) = true).
  { rewrite length_app; simpl; apply Z.ltb_lt; lia. }
  rewrite Hpos; repeat split; try reflexivity.
  all: unfold multi_entry in E; inv_bind E; inv_bind E; inv_bind E; inv_Ok E; simpl.
  - assumption.
  - assumption.
  - destruct (Z.gtb_spec d 1), (Z.eqb_spec d 1); try lia; assumption.
  - intros H1; destruct (Z.gtb_spec d 1); [assumption |].
    assert (d = 1) by lia; subst d; congruence.
Qed.

Lemma cycle_calendar_shape_witness :
  exists cal,
    create_cycle_calendar ac 1 = Ok cal /\
    Z.of_nat (length cal) = int_field ac "cycle_length" /\
    (forall i e, nth_error cal i = Some e -> day e = Z.of_nat i + 1) /\
    (forall e, In e cal ->
       (has_treatment e = true <-> drugs e <> []) /\
       (has_treatment e = true <->
        exists drug, In drug (drugs_of ac) /\
                     spec_included (day e) drug = true)).
Proof.
  apply (cycle_calendar_shape ac 1); [reflexivity | vm_compute; discriminate].
Defined.

Lemma multi_day_dose_witness :
  exists before e after,
    nth_error (spec_resolve_cycle th) 4 =
      Some (mk_day_entry 5 (before ++ e :: after) true) /\
    dose e = JStr "6mg/kg".
Proof.
  destruct (multi_day_dose th 1 7 5 [] [] trastuzumab [JInt 3; JInt 5]
              eq_refl eq_refl eq_refl eq_refl eq_refl) as [_ H].
  - lia.
  - destruct (H (spec_resolve_cycle th) eq_refl)
      as (before & e & after & Hnth & _ & _ & _ & _ & _ & Hm).
    exists before, e, after; split; [exact Hnth |].
    specialize (Hm eq_refl); injection Hm as Hm; symmetry; exact Hm.
Defined.

(** ** The timeline: what a returned timeline holds *)

Lemma field_Ok (x : json) (k : string) (v : json) :
  getitem x k = Ok v -> field x k = v.
Proof. unfold field; intros ->; reflexivity. Qed.

Lemma int_val_Ok (v : json) (n : Z) : int_of v = Ok n -> int_val v = n.
Proof. unfold int_val; intros ->; reflexivity. Qed.

Lemma int_field_Ok (x : json) (k : string) (v : json) (n : Z) :
  getitem x k = Ok v -> int_of v = Ok n -> int_field x k = n.
Proof. unfold int_field; intros H1 H2; rewrite (field_Ok _ _ _ H1), H2; reflexivity. Qed.

Lemma plus_days_Ok (date n r : Z) : plus_days date n = Ok r -> r = date + n.
Proof.
  unfold plus_days, timedelta, date_add.
  destruct (Z.abs n <=? 999999999); simpl; [| discriminate].
  destruct ((1 <=? date + n) && (date + n <=? max_ordinal)); [| discriminate].
  congruence.
Qed.

Lemma append_event_Ok (course : json) (c cs : Z) (drug dv : json) (e : event) :
  append_event (field course "name") c cs drug dv = Ok e ->
  (exists n, int_of dv = Ok n) /\ e = spec_event course c cs drug (int_val dv).
Proof.
  unfold append_event; intros H.
  inv_bind H. inv_bind H. inv_bind H. inv_bind H. inv_Ok H.
  apply plus_days_Ok in E0, E1; subst.
  split; [eauto |].
  unfold spec_event; rewrite (int_val_Ok _ _ E), (field_Ok _ _ _ E2); reflexivity.
Qed.

Lemma append_events_Ok (course : json) (c cs : Z) (drug : json) (l : list json)
    (es : list event) :
  mapM (append_event (field course "name") c cs drug) l = Ok es ->
  Forall (fun dv => exists n, int_of dv = Ok n) l /\
  es = map (spec_event course c cs drug) (map int_val l).
Proof.
  revert es; induction l as [| dv l IH]; simpl; intros es H.
  - inv_Ok H; auto.
  - inv_bind H. inv_bind H. inv_Ok H.
    apply append_event_Ok in E; destruct E as [Hn ->].
    destruct (IH _ E0) as [Hl ->]; auto.
Qed.

(** Iterating over a [dict] or a [str] gives strings, which are no days. *)
Lemma iter_ints (ds : json) (l : list json) :
  iter ds = Ok l ->
  Forall (fun dv => exists n, int_of dv = Ok n) l ->
  map int_val l = match ds with JList l' => map int_val l' | _ => [] end.
Proof.
  destruct ds as [| | | s | l' | kv]; simpl; intros H Hl; try discriminate; inv_Ok H.
  - destruct s; simpl in *; [reflexivity |].
    inversion Hl as [| ? ? (n & Hn) _]; discriminate.
  - reflexivity.
  - destruct kv; simpl in *; [reflexivity |].
    inversion Hl as [| ? ? (n & Hn) _]; discriminate.
Qed.

Lemma drug_events_Ok (course : json) (c cs : Z) (drug : json) (es : list event) :
  drug_events (field course "name") c cs drug = Ok es ->
  es = map (spec_event course c cs drug) (spec_admin_days drug).
Proof.
  unfold drug_events, spec_admin_days; intros H.
  destruct drug as [| | | s | l | kv]; simpl in H; try discriminate.
  - destruct (substring_of "day" s); [discriminate |].
    destruct (substring_of "days" s); [discriminate |].
    inv_Ok H; reflexivity.
  - destruct (existsb (is_str "day") l); [discriminate |].
    destruct (existsb (is_str "days") l); [discriminate |].
    inv_Ok H; reflexivity.
  - destruct (assoc "day" kv) as [v |]; simpl in H.
    + inv_bind H. inv_Ok H.
      apply append_event_Ok in E; destruct E as [_ ->]; reflexivity.
    + destruct (assoc "days" kv) as [ds |]; simpl in H; [| inv_Ok H; reflexivity].
      inv_bind H.
      apply append_events_Ok in H; destruct H as [Hl ->].
      rewrite (iter_ints _ _ E Hl).
      destruct ds; reflexivity.
Qed.

Lemma no_admin_days_flat_map {B : Type} (g : json -> list Z -> list B) (l : list json) :
  (forall x, g x [] = []) ->
  Forall (fun x => spec_admin_days x = []) l ->
  flat_map (fun x => g x (spec_admin_days x)) l = [].
Proof.
  intros Hg; induction 1 as [| x l Hx _ IH]; simpl; [reflexivity |].
  rewrite Hx, Hg, IH; reflexivity.
Qed.

Lemma iter_drugs (ds : json) (l : list json) (B : Type) (g : json -> list Z -> list B) :
  iter ds = Ok l ->
  (forall x, g x [] = []) ->
  flat_map (fun x => g x (spec_admin_days x)) l =
  flat_map (fun x => g x (spec_admin_days x))
           (match ds with JList l' => l' | _ => [] end).
Proof.
  intros H Hg.
  destruct ds as [| | | s | l' | kv]; simpl in H; try discriminate; inv_Ok H.
  - apply no_admin_days_flat_map; [exact Hg |].
    induction s; simpl; constructor; auto.
  - reflexivity.
  - apply no_admin_days_flat_map; [exact Hg |].
    induction kv; simpl; constructor; auto.
Qed.

Lemma drugs_events_Ok (course : json) (c cs : Z) (l : list json)
    (ess : list (list event)) :
  mapM (drug_events (field course "name") c cs) l = Ok ess ->
  concat ess =
  flat_map (fun drug => map (spec_event course c cs drug) (spec_admin_days drug)) l.
Proof.
  revert ess; induction l as [| drug l IH]; simpl; intros ess H.
  - inv_Ok H; reflexivity.
  - inv_bind H. inv_bind H. inv_Ok H; simpl.
    rewrite (drug_events_Ok _ _ _ _ _ E), (IH _ E0); reflexivity.
Qed.

Lemma cycle_events_Ok (course cl : json) (cur c : Z) (es : list event) :
  getitem course "cycle_length" = Ok cl ->
  cycle_events course (field course "name") cl cur c = Ok es ->
  es = spec_cycle_events course cur c.
Proof.
  unfold cycle_events, spec_cycle_events, spec_cycle_start; intros Hcl H.
  inv_bind H. inv_bind H. inv_bind H. inv_bind H. inv_bind H. inv_Ok H.
  apply plus_days_Ok in E0; subst.
  rewrite (int_field_Ok _ _ _ _ Hcl E).
  rewrite (drugs_events_Ok _ _ _ _ _ E3).
  unfold drugs_of; rewrite (field_Ok _ _ _ E1).
  apply (iter_drugs _ _ _ (fun drug => map (spec_event course c _ drug)) E2).
  reflexivity.
Qed.

Lemma cycles_events_Ok (course cl : json) (cur : Z) (cs : list Z)
    (ess : list (list event)) :
  getitem course "cycle_length" = Ok cl ->
  mapM (cycle_events course (field course "name") cl cur) cs = Ok ess ->
  concat ess = flat_map (spec_cycle_events course cur) cs.
Proof.
  intros Hcl; revert ess; induction cs as [| c cs IH]; simpl; intros ess H.
  - inv_Ok H; reflexivity.
  - inv_bind H. inv_bind H. inv_Ok H; simpl.
    rewrite (cycle_events_Ok _ _ _ _ _ Hcl E), (IH _ E0); reflexivity.
Qed.

Lemma advance_Ok (prev : option json) (cur cur' : Z) :
  advance prev cur = Ok cur' -> cur' = cur + span_of prev.
Proof.
  destruct prev as [p |]; simpl; intros H.
  - inv_bind H. inv_bind H. inv_bind H. inv_bind H.
    apply plus_days_Ok in H; subst; unfold span.
    rewrite (int_field_Ok _ _ _ _ E E1), (int_field_Ok _ _ _ _ E0 E2); reflexivity.
  - inv_Ok H; lia.
Qed.

Lemma courses_loop_Ok (courses : list json) :
  forall prev cur evs,
    courses_loop prev cur courses = Ok evs ->
    evs = events_from (cur + span_of prev) courses.
Proof.
  induction courses as [| course rest IH]; simpl; intros prev cur evs H.
  - inv_Ok H; reflexivity.
  - inv_bind H. inv_bind H. inv_bind H. inv_bind H. inv_bind H. inv_bind H.
    inv_bind H. inv_Ok H.
    apply advance_Ok in E2; subst.
    rewrite <- (field_Ok _ _ _ E) in E4.
    rewrite (cycles_events_Ok _ _ _ _ _ E0 E4).
    rewrite (IH _ _ _ E5); simpl.
    unfold spec_course_events; rewrite (int_field_Ok _ _ _ _ E1 E3); reflexivity.
Qed.

Lemma spec_course_start_cons (now : Z) (course : json) (rest : list json) (i : nat) :
  spec_course_start now (course :: rest) (S i) =
  spec_course_start (now + span course) rest i.
Proof.
  induction i as [| i IH]; [reflexivity |].
  change (spec_course_start now (course :: rest) (S (S i)))
    with (spec_course_start now (course :: rest) (S i) + span (nth i rest JNull)).
  rewrite IH; reflexivity.
Qed.

Lemma events_from_timeline (courses : list json) :
  forall now, events_from now courses = spec_timeline courses now.
Proof.
  unfold spec_timeline; induction courses as [| course rest IH]; intros now;
    [reflexivity |].
  simpl; f_equal.
  rewrite IH, <- seq_shift, !flat_map_concat_map, map_map.
  f_equal; apply map_ext; intros i.
  rewrite spec_course_start_cons; reflexivity.
Qed.

Lemma timeline_sound (courses : list json) (now : Z) (evs : list event) :
  timeline_data courses now = Ok evs -> evs = spec_timeline courses now.
Proof.
  unfold timeline_data; intros H.
  apply courses_loop_Ok in H; simpl in H.
  rewrite Z.add_0_r in H; rewrite H; apply events_from_timeline.
Qed.

(** ** The timeline of a regimen of the data model *)

Lemma plus_days_in (date n : Z) :
  1 <= date + n <= max_ordinal -> -999999999 <= n <= 999999999 ->
  plus_days date n = Ok (date + n).
Proof.
  unfold plus_days, timedelta, date_add; intros H1 H2.
  destruct (Z.leb_spec (Z.abs n) 999999999); [simpl | lia].
  destruct (Z.leb_spec 1 (date + n)); [| lia].
  destruct (Z.leb_spec (date + n) max_ordinal); [reflexivity | lia].
Qed.

Lemma append_event_wf (course : json) (c cs d : Z) (kv : list (string * json)) :
  has "name" kv = true ->
  1 <= cs -> 1 <= d -> cs + d <= max_ordinal ->
  append_event (field course "name") c cs (JObj kv) (JInt d) =
  Ok (spec_event course c cs (JObj kv) d).
Proof.
  intros Hnm Hcs Hd Hmax; apply has_true in Hnm; destruct Hnm as [nm Hnm].
  unfold append_event, spec_event, field, getitem; simpl.
  unfold max_ordinal in *.
  rewrite plus_days_in by (unfold max_ordinal; lia); simpl.
  rewrite plus_days_in by (unfold max_ordinal; lia); simpl.
  rewrite Hnm; reflexivity.
Qed.

Lemma day_in_range_inv (n : Z) (v : json) :
  day_in_range n v = true -> exists d, v = JInt d /\ 1 <= d <= n.
Proof.
  destruct v as [| | d | | |]; try discriminate; simpl; intros H.
  apply andb_prop in H; destruct H as [H1 H2].
  apply Z.leb_le in H1, H2; eauto.
Qed.

Lemma wf_drug_name (kv : list (string * json)) :
  wf_drug (JObj kv) = true -> has "name" kv = true.
Proof.
  unfold wf_drug, required, has_all; intros H.
  apply andb_prop in H; destruct H as [_ H].
  destruct (has "day" kv); simpl in H; apply andb_prop in H; tauto.
Qed.

Lemma drug_events_wf (course : json) (c cs len : Z) (drug : json) :
  wf_drug drug = true -> drug_in_range len drug = true ->
  1 <= cs -> cs + len <= max_ordinal ->
  drug_events (field course "name") c cs drug =
  Ok (map (spec_event course c cs drug) (spec_admin_days drug)).
Proof.
  intros Hwf Hr Hcs Hmax.
  destruct drug as [| | | | | kv]; try discriminate.
  pose proof (wf_drug_name _ Hwf) as Hnm.
  unfold wf_drug, typed_drug in Hwf; apply andb_prop in Hwf; destruct Hwf as [Hty _].
  unfold drug_events, spec_admin_days, drug_in_range in *; simpl.
  destruct (assoc "day" kv) as [v |] eqn:Hday; simpl.
  - apply day_in_range_inv in Hr; destruct Hr as (d & -> & Hd).
    rewrite append_event_wf by (assumption || lia); reflexivity.
  - destruct (assoc "days" kv) as [[| | | | l |] |] eqn:Hdays; try discriminate; simpl.
    rewrite map_map; apply mapM_pure; intros dv Hin.
    rewrite forallb_forall in Hr; apply Hr, day_in_range_inv in Hin.
    destruct Hin as (d & -> & Hd).
    change (int_val (JInt d)) with d.
    apply append_event_wf; assumption || lia.
Qed.

Lemma cycle_events_wf (kv : list (string * json)) (ds : list json)
    (len cycles cur c : Z) :
  assoc "cycle_length" kv = Some (JInt len) ->
  assoc "drugs" kv = Some (JList ds) ->
  forallb wf_drug ds = true ->
  forallb (drug_in_range len) ds = true ->
  1 <= len -> 1 <= c <= cycles ->
  1 <= cur -> cur + cycles * len <= max_ordinal ->
  cycle_events (JObj kv) (field (JObj kv) "name") (JInt len) cur c =
  Ok (spec_cycle_events (JObj kv) cur c).
Proof.
  intros Hlen Hds Hwf Hr H1 Hc Hcur Hmax.
  assert (Hb : 1 <= cur + (c - 1) * len /\ cur + (c - 1) * len + len <= max_ordinal)
    by (split; nia).
  unfold cycle_events, spec_cycle_events, spec_cycle_start, drugs_of, int_field, field.
  unfold getitem at 1 3 4; simpl.
  rewrite Hlen, Hds; simpl.
  rewrite plus_days_in by (unfold max_ordinal in *; lia); simpl.
  rewrite (mapM_pure _ (fun drug => map (spec_event (JObj kv) c (cur + (c - 1) * len) drug)
                                        (spec_admin_days drug))).
  - simpl; rewrite flat_map_concat_map; reflexivity.
  - intros drug Hin; rewrite forallb_forall in Hwf, Hr.
    apply (drug_events_wf (JObj kv) c _ len); auto; lia.
Qed.

Lemma course_ok_inv (course : json) :
  wf_course course = true -> course_in_range course = true ->
  exists kv nm len cycles ds,
    course = JObj kv /\ assoc "name" kv = Some nm /\
    assoc "cycle_length" kv = Some (JInt len) /\
    assoc "cycles" kv = Some (JInt cycles) /\
    assoc "drugs" kv = Some (JList ds) /\
    forallb wf_drug ds = true /\ forallb (drug_in_range len) ds = true /\
    1 <= len /\ 1 <= cycles /\ span course = cycles * len.
Proof.
  intros Hwf Hr.
  destruct (wf_course_inv _ Hwf) as (kv & nm & len & cycles & ds & -> & Hnm & Hlen & Hcy & Hds & Hd).
  exists kv, nm, len, cycles, ds.
  unfold course_in_range, span, drugs_of, int_field, field, getitem in *.
  rewrite Hlen, Hcy, Hds in *; simpl in *.
  apply andb_prop in Hr; destruct Hr as [Hr H3].
  apply andb_prop in Hr; destruct Hr as [H1 H2].
  apply Z.leb_le in H1, H2; repeat split; auto.
Qed.

Lemma total_span_nonneg (courses : list json) :
  forallb wf_course courses = true -> forallb course_in_range courses = true ->
  0 <= total_span courses.
Proof.
  induction courses as [| course rest IH]; simpl; intros Hwf Hr; [lia |].
  apply andb_prop in Hwf, Hr; destruct Hwf as [Hw Hwf], Hr as [Hc Hr].
  destruct (course_ok_inv _ Hw Hc) as (? & ? & len & cycles & ? & _ & _ & _ & _ & _ & _ & _ & ? & ? & ->).
  specialize (IH Hwf Hr); nia.
Qed.

Lemma courses_loop_wf (courses : list json) :
  forall prev cur,
    forallb wf_course courses = true ->
    forallb course_in_range courses = true ->
    match prev with
    | None => True
    | Some p => wf_course p = true /\ course_in_range p = true
    end ->
    1 <= cur ->
    (courses <> [] -> cur + span_of prev + total_span courses <= max_ordinal) ->
    courses_loop prev cur courses = Ok (events_from (cur + span_of prev) courses).
Proof.
  induction courses as [| course rest IH]; intros prev cur Hwf Hr Hprev Hcur Hmax;
    [reflexivity |].
  simpl in Hwf, Hr; apply andb_prop in Hwf, Hr.
  destruct Hwf as [Hw Hwf], Hr as [Hc Hr].
  specialize (Hmax ltac:(discriminate)); simpl in Hmax.
  pose proof (total_span_nonneg _ Hwf Hr) as Hrest.
  destruct (course_ok_inv _ Hw Hc)
    as (kv & nm & len & cycles & ds & -> & Hnm & Hlen & Hcy & Hds & Hd & Hdr & H1 & H2 & Hspan).
  assert (Hprev' : 0 <= span_of prev /\ advance prev cur = Ok (cur + span_of prev)).
  { destruct prev as [p |]; simpl; [| split; [lia | f_equal; lia]].
    destruct Hprev as [Hpw Hpr].
    destruct (course_ok_inv _ Hpw Hpr)
      as (kv' & ? & len' & cycles' & ? & -> & _ & Hlen' & Hcy' & _ & _ & _ & ? & ? & Hspan').
    split; [nia |].
    unfold getitem; rewrite Hlen', Hcy'; simpl.
    rewrite Hspan' in *; simpl in Hmax.
    apply plus_days_in; unfold max_ordinal in *; nia. }
  destruct Hprev' as [Hp0 Hadv].
  simpl; rewrite Hnm, Hlen, Hcy; simpl.
  rewrite Hadv; simpl.
  replace nm with (field (JObj kv) "name")
    by (unfold field, getitem; rewrite Hnm; reflexivity).
  rewrite (mapM_pure _ (spec_cycle_events (JObj kv) (cur + span_of prev))).
  - simpl.
    rewrite IH; auto; try lia.
    + simpl; unfold spec_course_events, int_field, field, getitem; rewrite Hcy; simpl.
      rewrite flat_map_concat_map; reflexivity.
    + intros _; simpl; lia.
  - intros c Hin; apply In_range1 in Hin.
    apply (cycle_events_wf kv ds len cycles); auto; nia.
Qed.

Lemma timeline_complete (courses : list json) (now : Z) :
  regimen_ok courses now ->
  timeline_data courses now = Ok (spec_timeline courses now).
Proof.
  intros (Hwf & Hr & Hnow & Hmax); unfold timeline_data.
  rewrite courses_loop_wf; simpl; auto; try lia.
  rewrite Z.add_0_r, events_from_timeline; reflexivity.
Qed.

(** ** The timeline: claims *)

(** C2.  A timeline that the loops of [create_treatment_timeline] produce
    is, course after course in the order of the list, cycle after cycle,
    drug after drug and day after day, the list of the events below.  The
    course of index 0 starts on the date [now]; the course of index [i > 0]
    starts [cycles * cycle_length] days (of the course [i - 1]) after the
    course [i - 1]; cycle [c] of a course starts [(c - 1) * cycle_length]
    days after the course; the event of administration day [d] starts
    [d - 1] days after its cycle and ends one day later, and carries the
    name of the course, the label "Cycle c" and the name of the drug.  For
    a regimen of the data model that ends within the calendar a timeline is
    produced. *)
Theorem timeline_dates (courses : list json) (now : Z) :
  (regimen_ok courses now -> exists evs, timeline_data courses now = Ok evs) /\
  (forall evs, timeline_data courses now = Ok evs ->
     evs = flat_map (fun i => spec_course_events (nth i courses JNull)
                                (spec_course_start now courses i))
                    (seq 0 (length courses))) /\
  spec_course_start now courses 0 = now /\
  (forall i, (0 < i)%nat ->
     spec_course_start now courses i =
     spec_course_start now courses (i - 1) +
     int_field (nth (i - 1) courses JNull) "cycles" *
     int_field (nth (i - 1) courses JNull) "cycle_length") /\
  (forall course start,
     spec_course_events course start =
     flat_map (fun c =>
       flat_map (fun drug =>
         map (spec_event course c (start + (c - 1) * int_field course "cycle_length") drug)
             (spec_admin_days drug))
         (drugs_of course))
       (range1 (int_field course "cycles"))) /\
  (forall course c cycle_start drug d,
     spec_event course c cycle_start drug d =
     mk_event (field course "name") ("Cycle " ++ str c)%string (field drug "name")
              (cycle_start + (d - 1)) (cycle_start + (d - 1) + 1)).
Proof.
  split; [| split; [| split; [| split; [| split]]]].
  - intros H; eexists; apply timeline_complete; exact H.
  - intros evs H; apply timeline_sound; exact H.
  - reflexivity.
  - intros [| i] Hi; [lia |].
    simpl; rewrite Nat.sub_0_r; reflexivity.
  - reflexivity.
  - reflexivity.
Qed.

Lemma regimen_ok_ac : regimen_ok [ac] jan_1_2024.
Proof. repeat split; vm_compute; discriminate. Qed.

Lemma timeline_dates_witness :
  exists evs,
    timeline_data [ac] jan_1_2024 = Ok evs /\
    evs = flat_map (fun i => spec_course_events (nth i [ac] JNull)
                               (spec_course_start jan_1_2024 [ac] i))
                   (seq 0 (length [ac])).
Proof.
  destruct (timeline_dates [ac] jan_1_2024) as (Hok & Heq & _).
  destruct (Hok regimen_ok_ac) as [evs Hevs].
  exists evs; split; [exact Hevs | apply Heq; exact Hevs].
Defined.





(** C9, at a record with both a [day] and a list [days]: the timeline has
    one event per cycle, on the [day], but the calendar also schedules the
    drug on day 3, a member of [days], with the maintenance dose. *)
Theorem both_shapes_disagree :
  create_cycle_calendar course_both 1 =
    Ok [mk_day_entry 1 [mk_drug_entry (JStr "X") (JStr "10mg") (JStr "IV")] true;
        mk_day_entry 2 [] false;
        mk_day_entry 3 [mk_drug_entry (JStr "X") (JStr "6mg") (JStr "IV")] true] /\
  timeline_data [course_both] jan_1_2024 =
    Ok [mk_event (JStr "B") "Cycle 1" (JStr "X") jan_1_2024 (jan_1_2024 + 1)].
Proof. split; reflexivity. Qed.

(** ** Fields are read when they are needed *)

Lemma assoc_remove (k k' : string) (kv : list (string * json)) :
  assoc k' (remove k kv) = if String.eqb k k' then None else assoc k' kv.
Proof.
  induction kv as [| [k0 v] kv IH]; simpl.
  - destruct (String.eqb k k'); reflexivity.
  - destruct (String.eqb_spec k k0) as [-> | Hk0]; simpl.
    + rewrite IH. destruct (String.eqb_spec k0 k') as [-> | Hk']; [reflexivity |].
      destruct (String.eqb_spec k' k0); [congruence | reflexivity].
    + rewrite IH. destruct (String.eqb_spec k k') as [-> | Hk'].
      * destruct (String.eqb_spec k' k0); [congruence | reflexivity].
      * reflexivity.
Qed.

Lemma mapM_middle {A B : Type} (f : A -> result B) (pre post : list A) (a a' : A) :
  f a' = f a -> mapM f (pre ++ a' :: post) = mapM f (pre ++ a :: post).
Proof.
  intros H; induction pre as [| x pre IH]; simpl; [rewrite H | rewrite IH]; reflexivity.
Qed.

Lemma calendar_ext (course course' : json) (cycle_num : Z) :
  getitem course' "cycle_length" = getitem course "cycle_length" ->
  (forall d, 1 <= d -> calendar_day course' d = calendar_day course d) ->
  create_cycle_calendar course' cycle_num = create_cycle_calendar course cycle_num.
Proof.
  unfold create_cycle_calendar; intros -> H.
  destruct (getitem course "cycle_length") as [cl |]; simpl; [| reflexivity].
  destruct (int_of cl) as [n |]; simpl; [| reflexivity].
  apply mapM_ext; intros d Hd; apply In_range1 in Hd; apply H; lia.
Qed.

Lemma drug_on_day_remove (k : string) (d : Z) (kv : list (string * json))
    (days : list json) :
  assoc "day" kv = None ->
  assoc "days" kv = Some (JList days) ->
  k = "loading_dose" \/ k = "maintenance_dose" ->
  existsb (fun v => eq_int v d) days = false \/
  (if d >? 1 then "maintenance_dose" else "loading_dose") <> k ->
  drug_on_day d (JObj (remove k kv)) = drug_on_day d (JObj kv).
Proof.
  intros Hday Hdays Hk Hsel.
  unfold drug_on_day, single_test, multi_test, multi_entry; simpl.
  rewrite !assoc_remove, Hday, Hdays.
  assert (Hk1 : String.eqb k "day" = false /\ String.eqb k "days" = false /\
                String.eqb k "name" = false /\ String.eqb k "route" = false)
    by (destruct Hk; subst k; repeat split; reflexivity).
  destruct Hk1 as (-> & -> & Hnm & Hrt); simpl.
  destruct (existsb (fun v => eq_int v d) days); [| reflexivity].
  destruct Hsel as [Hsel | Hsel]; [discriminate |].
  destruct (d >? 1); simpl; rewrite Hnm, Hrt.
  - destruct (String.eqb_spec k "maintenance_dose"); [congruence | reflexivity].
  - destruct (String.eqb_spec k "loading_dose"); [congruence | reflexivity].
Qed.

(** C10.  Take a multi-day drug (a record with a list [days] and no [day])
    of a course, and the same course with the field [k] removed from the
    record.  When [k] is [loading_dose] and 1 is not among the days of the
    cycle on which the drug is given, or [k] is [maintenance_dose] and no
    day after day 1 is, the result of [create_cycle_calendar] is the same
    with and without the field: the field is not read.  So when the course
    with the field is well formed, the cycle without it resolves. *)
Theorem dose_read_when_selected (course course' : json) (cycle_num n : Z)
    (pre post : list json) (kv : list (string * json)) (days : list json)
    (k : string) :
  getitem course "cycle_length" = Ok (JInt n) ->
  getitem course' "cycle_length" = Ok (JInt n) ->
  getitem course "drugs" = Ok (JList (pre ++ JObj kv :: post)) ->
  getitem course' "drugs" = Ok (JList (pre ++ JObj (remove k kv) :: post)) ->
  assoc "day" kv = None ->
  assoc "days" kv = Some (JList days) ->
  (k = "loading_dose" /\
   (1 <= n -> existsb (fun v => eq_int v 1) days = false)) \/
  (k = "maintenance_dose" /\
   (forall d, 1 < d <= n -> existsb (fun v => eq_int v d) days = false)) ->
  create_cycle_calendar course' cycle_num = create_cycle_calendar course cycle_num /\
  (wf_course course = true ->
   exists cal, create_cycle_calendar course' cycle_num = Ok cal).
Proof.
  intros Hn Hn' Hds Hds' Hday Hdays Hk.
  assert (Heq : create_cycle_calendar course' cycle_num =
                create_cycle_calendar course cycle_num).
  { unfold create_cycle_calendar; rewrite Hn, Hn'; simpl.
    apply mapM_ext; intros d Hd; apply In_range1 in Hd.
    unfold calendar_day; rewrite Hds, Hds'; simpl.
    unfold day_drugs; rewrite (mapM_middle _ pre post (JObj kv)); [reflexivity |].
    apply (drug_on_day_remove k d kv days Hday Hdays); [tauto |].
    destruct Hk as [[-> H1] | [-> Hm]].
    - destruct (Z.gtb_spec d 1); [right; discriminate |].
      left; replace d with 1 by lia; apply H1; lia.
    - destruct (Z.gtb_spec d 1); [| right; discriminate].
      left; apply Hm; lia. }
  split; [exact Heq |].
  intros Hwf; rewrite Heq; eexists; apply calendar_refines; exact Hwf.
Qed.

Lemma dose_read_when_selected_witness :
  exists cal, create_cycle_calendar th_no_loading 1 = Ok cal.
Proof.
  refine (proj2 (dose_read_when_selected th th_no_loading 1 7 [] [] trastuzumab
                   [JInt 3; JInt 5] "loading_dose"
                   eq_refl eq_refl eq_refl eq_refl eq_refl eq_refl _) eq_refl).
  left; split; reflexivity.
Defined.

(** ** Failures of the calendar *)

Ltac key_of_goal :=
  match goal with
  | |- exists k, _ /\ _ /\ KeyError ?x = KeyError k => exists x
  end.

Lemma drug_on_day_typed (d : Z) (drug : json) :
  typed_drug drug = true ->
  match drug_on_day d drug with
  | Ok _ => forall k, In k (fields_read d drug) -> exists v, getitem drug k = Ok v
  | Err e => exists k, In k (fields_read d drug) /\
                       getitem drug k = Err (KeyError k) /\ e = KeyError k
  end.
Proof.
  destruct drug as [| | | | | kv]; try discriminate.
  unfold typed_drug, fields_read, spec_included, has.
  unfold drug_on_day, single_test, multi_test, single_entry, multi_entry.
  unfold getitem, contains_key; simpl.
  destruct (assoc "day" kv) as [[| | n | | |] |] eqn:Hday; try discriminate.
  - destruct (assoc "days" kv) eqn:Hdays; try discriminate; intros _; simpl.
    destruct (n =? d); simpl; [| intros k []].
    destruct (assoc "name" kv) eqn:Hnm; simpl;
      [destruct (assoc "dose" kv) eqn:Hdo; simpl;
         [destruct (assoc "route" kv) eqn:Hrt; simpl |] |].
    + intros k [<- | [<- | [<- | []]]]; [rewrite Hnm | rewrite Hdo | rewrite Hrt]; eauto.
    + key_of_goal; rewrite Hrt; simpl; auto.
    + key_of_goal; rewrite Hdo; simpl; auto.
    + key_of_goal; rewrite Hnm; simpl; auto.
  - destruct (assoc "days" kv) as [[| | | | l |] |] eqn:Hdays; try discriminate;
      intros _; simpl.
    destruct (existsb (fun v => eq_int v d) l); simpl; [| intros k []].
    set (sel := if d >? 1 then "maintenance_dose" else "loading_dose").
    replace (if d >? 1
             then match assoc "maintenance_dose" kv with
                  | Some v => Ok v
                  | None => Err (KeyError "maintenance_dose")
                  end
             else match assoc "loading_dose" kv with
                  | Some v => Ok v
                  | None => Err (KeyError "loading_dose")
                  end)
      with (match assoc sel kv with
            | Some v => Ok v
            | None => Err (KeyError sel)
            end)
      by (unfold sel; destruct (d >? 1); reflexivity).
    destruct (assoc sel kv) eqn:Hdo; simpl;
      [destruct (assoc "name" kv) eqn:Hnm; simpl;
         [destruct (assoc "route" kv) eqn:Hrt; simpl |] |].
    + intros k [<- | [<- | [<- | []]]]; [rewrite Hdo | rewrite Hnm | rewrite Hrt]; eauto.
    + key_of_goal; rewrite Hrt; simpl; auto.
    + key_of_goal; rewrite Hnm; simpl; auto.
    + key_of_goal; rewrite Hdo; simpl; auto.
Qed.

Lemma calendar_Err (course : json) (cycle_num : Z) (kv : list (string * json))
    (n : Z) (ds : list json) (e : exn) :
  course = JObj kv ->
  assoc "cycle_length" kv = Some (JInt n) ->
  assoc "drugs" kv = Some (JList ds) ->
  create_cycle_calendar course cycle_num = Err e ->
  exists d drug, 1 <= d <= n /\ In drug ds /\ drug_on_day d drug = Err e.
Proof.
  intros -> Hn Hds; unfold create_cycle_calendar, getitem; rewrite Hn; simpl.
  intros H; apply mapM_Err in H; destruct H as (d & Hd & H).
  apply In_range1 in Hd.
  unfold calendar_day, getitem in H; rewrite Hds in H; simpl in H.
  apply bind_Err in H; destruct H as [H | (dd & _ & H)]; [| discriminate].
  unfold day_drugs in H.
  apply bind_Err in H; destruct H as [H | (ess & _ & H)]; [| discriminate].
  apply mapM_Err in H; destruct H as (drug & Hin & H).
  exists d, drug; auto.
Qed.

Lemma calendar_Ok (course : json) (cycle_num : Z) (kv : list (string * json))
    (n : Z) (ds : list json) (cal : list day_entry) :
  course = JObj kv ->
  assoc "cycle_length" kv = Some (JInt n) ->
  assoc "drugs" kv = Some (JList ds) ->
  create_cycle_calendar course cycle_num = Ok cal ->
  forall d drug, 1 <= d <= n -> In drug ds -> exists es, drug_on_day d drug = Ok es.
Proof.
  intros -> Hn Hds; unfold create_cycle_calendar, getitem; rewrite Hn; simpl.
  intros H d drug Hd Hin.
  destruct (mapM_Ok_In _ _ _ H d) as (e & He & _); [apply In_range1; exact Hd |].
  unfold calendar_day, getitem in He; rewrite Hds in He; simpl in He.
  inv_bind He. unfold day_drugs in E. inv_bind E.
  destruct (mapM_Ok_In _ _ _ E0 drug Hin) as (es & Hes & _); eauto.
Qed.

(** C6, as amended.  On a course whose records have the types of the data
    model (integer [cycle_length], a list of drugs, each with an integer
    [day] or a list of integers [days]), every exception of
    [create_cycle_calendar] is a [KeyError] that carries the missing key,
    and nothing of the drug: some drug, on some day of the cycle on which it
    is included, lacks the field [k] that is read for it there.  And when a
    drug lacks a field that is read for it on some day of the cycle, the
    calendar fails with a [KeyError].  A field that is not read on any day
    is not missed. *)
Theorem missing_field_KeyError (course : json) (cycle_num : Z) :
  typed_course course = true ->
  (forall e, create_cycle_calendar course cycle_num = Err e ->
     exists d drug k,
       1 <= d <= int_field course "cycle_length" /\
       In drug (drugs_of course) /\ In k (fields_read d drug) /\
       getitem drug k = Err (KeyError k) /\ e = KeyError k) /\
  (forall d drug k,
     1 <= d <= int_field course "cycle_length" ->
     In drug (drugs_of course) -> In k (fields_read d drug) ->
     getitem drug k = Err (KeyError k) ->
     exists k', create_cycle_calendar course cycle_num = Err (KeyError k')).
Proof.
  intros Hty.
  destruct (course_of_inv _ _ Hty) as (kv & nm & n & c & ds & -> & _ & Hn & _ & Hds & Hdrugs).
  assert (Hnf : int_field (JObj kv) "cycle_length" = n)
    by (unfold int_field, field, getitem; rewrite Hn; reflexivity).
  assert (Hdf : drugs_of (JObj kv) = ds)
    by (unfold drugs_of, field, getitem; rewrite Hds; reflexivity).
  rewrite Hnf, Hdf.
  assert (Herr : forall e, create_cycle_calendar (JObj kv) cycle_num = Err e ->
                 exists d drug k, 1 <= d <= n /\ In drug ds /\
                   In k (fields_read d drug) /\
                   getitem drug k = Err (KeyError k) /\ e = KeyError k).
  { intros e H.
    destruct (calendar_Err _ _ kv n ds e eq_refl Hn Hds H) as (d & drug & Hd & Hin & He).
    rewrite forallb_forall in Hdrugs.
    pose proof (drug_on_day_typed d drug (Hdrugs drug Hin)) as Ht.
    rewrite He in Ht; destruct Ht as (k & Hk & Hg & ->).
    exists d, drug, k; auto. }
  split; [exact Herr |].
  intros d drug k Hd Hin Hk Hmiss.
  destruct (create_cycle_calendar (JObj kv) cycle_num) as [cal | e] eqn:Hcal.
  - destruct (calendar_Ok _ _ kv n ds cal eq_refl Hn Hds Hcal d drug Hd Hin) as [es Hes].
    rewrite forallb_forall in Hdrugs.
    pose proof (drug_on_day_typed d drug (Hdrugs drug Hin)) as Ht.
    rewrite Hes in Ht; destruct (Ht k Hk) as [v Hv]; congruence.
  - destruct (Herr e eq_refl) as (_ & _ & k' & _ & _ & _ & _ & ->); eauto.
Qed.

Lemma missing_field_KeyError_witness :
  exists k', create_cycle_calendar (course_with 3 1 [no_dose "X"]) 1
             = Err (KeyError k').
Proof.
  apply (proj2 (missing_field_KeyError (course_with 3 1 [no_dose "X"]) 1 eq_refl)
           1 (no_dose "X") "dose").
  - vm_compute; split; discriminate.
  - left; reflexivity.
  - right; left; reflexivity.
  - reflexivity.
Defined.

(** C6 as it is stated fails twice.  A multi-day drug without a [route] that
    is given on no day is never looked at, and the cycle resolves.  And two
    drugs of different names that lack their [dose] raise the same
    exception, which carries the key and not the drug. *)
Lemma missing_field_unnoticed :
  create_cycle_calendar (course_with 2 1 [never_given]) 1 =
    Ok [mk_day_entry 1 [] false; mk_day_entry 2 [] false] /\
  getitem never_given "route" = Err (KeyError "route") /\
  create_cycle_calendar (course_with 3 1 [no_dose "X"]) 1 = Err (KeyError "dose") /\
  create_cycle_calendar (course_with 3 1 [no_dose "Y"]) 1 = Err (KeyError "dose").
Proof. repeat split. Qed.

(** ** No check of the ranges *)

Lemma spec_resolve_cycle_days (course : json) (e : day_entry) :
  In e (spec_resolve_cycle course) ->
  1 <= day e <= int_field course "cycle_length".
Proof.
  unfold spec_resolve_cycle; intros H.
  apply in_map_iff in H; destruct H as (d & <- & Hd).
  apply In_range1 in Hd; exact Hd.
Qed.








(** ** Loading: claims *)

(** C5, as amended.  [main] gets no list of courses from an input that is
    not a mapping: when parsing fails [load_json_file] returns [None] and
    [main] returns; a parsed value that is not a [dict] either is false, and
    [main] returns, or has no [items] and raises [AttributeError].  From a
    non-empty mapping the courses are the values of the keys that begin with
    "course", in their order, whatever they hold: no field of a course is
    looked at. *)
Theorem loader_checks_nothing (json_loads : string -> result json) (content : string) :
  (forall e, json_loads content = Err e ->
     main_courses json_loads content = Ok None) /\
  (forall data, json_loads content = Ok data ->
     (forall kv, data <> JObj kv) ->
     main_courses json_loads content = Ok None \/
     main_courses json_loads content = Err AttributeError) /\
  (forall kv, json_loads content = Ok (JObj kv) -> kv <> [] ->
     main_courses json_loads content =
       Ok (Some (map snd (filter (fun p => String.prefix "course" (fst p)) kv))) /\
     get_treatment_courses (JObj kv) =
       Ok (map snd (filter (fun p => String.prefix "course" (fst p)) kv))).
Proof.
  unfold main_courses, load_json_file; split; [| split].
  - intros e ->; reflexivity.
  - intros data -> Hnot.
    destruct data as [| b | n | s | l | kv]; simpl.
    + left; reflexivity.
    + destruct b; [right | left]; reflexivity.
    + destruct (n =? 0); [left | right]; reflexivity.
    + destruct (String.eqb s ""); [left | right]; reflexivity.
    + destruct l; [left | right]; reflexivity.
    + destruct (Hnot kv eq_refl).
  - intros kv -> Hkv; simpl.
    destruct kv; [congruence | split; reflexivity].
Qed.

Lemma loader_checks_nothing_witness :
  main_courses (fun _ => Ok (JObj [("course1", JObj [])])) "" = Ok (Some [JObj []]).
Proof.
  apply (proj2 (proj2 (loader_checks_nothing
                         (fun _ => Ok (JObj [("course1", JObj [])])) ""))
           [("course1", JObj [])] eq_refl).
  discriminate.
Defined.

(** C5 as it is stated fails: a course record without [cycle_length],
    [cycles] and [drugs] is returned as a course. *)
Lemma empty_course_loaded :
  get_treatment_courses (JObj [("course1", JObj [])]) = Ok [JObj []] /\
  getitem (JObj []) "cycle_length" = Err (KeyError "cycle_length") /\
  getitem (JObj []) "cycles" = Err (KeyError "cycles") /\
  getitem (JObj []) "drugs" = Err (KeyError "drugs").
Proof. repeat split. Qed.

(** ** Further properties of the timeline *)

Lemma plus_days_valid (date n r : Z) :
  plus_days date n = Ok r -> r = date + n /\ valid_date r.
Proof.
  unfold plus_days, timedelta, date_add, valid_date.
  destruct (Z.abs n <=? 999999999); simpl; [| discriminate].
  destruct (Z.leb_spec 1 (date + n)); simpl; [| discriminate].
  destruct (Z.leb_spec (date + n) max_ordinal); [| discriminate].
  intros Hr; inv_Ok Hr; lia.
Qed.

Lemma mapM_Forall {A B : Type} (f : A -> result B) (P : B -> Prop) (l : list A)
    (bs : list B) :
  (forall a b, In a l -> f a = Ok b -> P b) -> mapM f l = Ok bs -> Forall P bs.
Proof.
  intros HP H; apply mapM_Forall2 in H.
  induction H as [| a b l bs Hab _ IH]; constructor.
  - apply (HP a); [left; reflexivity | exact Hab].
  - apply IH; intros a' b' Hin; apply HP; right; exact Hin.
Qed.

Lemma append_event_one_day (nm : json) (c cs : Z) (drug dv : json) (e : event) :
  append_event nm c cs drug dv = Ok e -> one_day e.
Proof.
  unfold append_event; intros H.
  inv_bind H. inv_bind H. inv_bind H. inv_bind H. inv_Ok H.
  apply plus_days_valid in E0, E1; destruct E0 as [-> H0], E1 as [-> H1].
  unfold one_day; simpl; auto.
Qed.

Lemma drug_events_one_day (nm : json) (c cs : Z) (drug : json) (es : list event) :
  drug_events nm c cs drug = Ok es -> Forall one_day es.
Proof.
  unfold drug_events; intros H.
  inv_bind H. destruct v.
  - inv_bind H. inv_bind H. inv_Ok H.
    constructor; [eapply append_event_one_day; eassumption | constructor].
  - inv_bind H. destruct v; [| inv_Ok H; constructor].
    inv_bind H. inv_bind H.
    eapply mapM_Forall; [| eassumption].
    intros a b _; apply append_event_one_day.
Qed.

Lemma cycle_events_one_day (course nm cl : json) (cur c : Z) (es : list event) :
  cycle_events course nm cl cur c = Ok es -> Forall one_day es.
Proof.
  unfold cycle_events; intros H.
  inv_bind H. inv_bind H. inv_bind H. inv_bind H. inv_bind H. inv_Ok H.
  apply Forall_concat.
  eapply mapM_Forall; [| eassumption].
  intros a b _; apply drug_events_one_day.
Qed.

Lemma courses_loop_one_day (courses : list json) :
  forall prev cur evs,
    courses_loop prev cur courses = Ok evs -> Forall one_day evs.
Proof.
  induction courses as [| course rest IH]; simpl; intros prev cur evs H.
  - inv_Ok H; constructor.
  - inv_bind H. inv_bind H. inv_bind H. inv_bind H. inv_bind H. inv_bind H.
    inv_bind H. inv_Ok H.
    apply Forall_app; split; [| eapply IH; eassumption].
    apply Forall_concat.
    eapply mapM_Forall; [| eassumption].
    intros a b _; apply cycle_events_one_day.
Qed.

(** X1.  Every event of a timeline that is produced, for any input, lasts
    one day, and both its dates are dates that [datetime] can hold: day 1
    (0001-01-01) to day [max_ordinal] (9999-12-31). *)
Theorem events_last_one_day (courses : list json) (now : Z) (evs : list event)
    (e : event) :
  timeline_data courses now = Ok evs -> In e evs ->
  Finish e = Start e + 1 /\
  1 <= Start e <= max_ordinal /\ 1 <= Finish e <= max_ordinal.
Proof.
  intros H Hin; apply courses_loop_one_day in H.
  rewrite Forall_forall in H; exact (H e Hin).
Qed.

Lemma events_last_one_day_witness :
  Finish (mk_event (JStr "AC") "Cycle 1" (JStr "Doxorubicin")
                   jan_1_2024 (jan_1_2024 + 1)) =
    Start (mk_event (JStr "AC") "Cycle 1" (JStr "Doxorubicin")
                    jan_1_2024 (jan_1_2024 + 1)) + 1 /\
  1 <= Start (mk_event (JStr "AC") "Cycle 1" (JStr "Doxorubicin")
                       jan_1_2024 (jan_1_2024 + 1)) <= max_ordinal /\
  1 <= Finish (mk_event (JStr "AC") "Cycle 1" (JStr "Doxorubicin")
                        jan_1_2024 (jan_1_2024 + 1)) <= max_ordinal.
Proof.
  apply (events_last_one_day [ac] jan_1_2024 (spec_timeline [ac] jan_1_2024)).
  - reflexivity.
  - left; reflexivity.
Defined.

Lemma length_spec_cycle_events (course : json) (start c : Z) :
  length (spec_cycle_events course start c) = admin_count course.
Proof.
  unfold spec_cycle_events, admin_count; rewrite length_flat_map.
  f_equal; apply map_ext; intros drug; apply length_map.
Qed.

Lemma length_spec_course_events (course : json) (start : Z) :
  length (spec_course_events course start) =
  (Z.to_nat (int_field course "cycles") * admin_count course)%nat.
Proof.
  unfold spec_course_events.
  rewrite (flat_map_constant_length (c := admin_count course)).
  - rewrite length_range1; reflexivity.
  - intros c _; apply length_spec_cycle_events.
Qed.

Lemma length_events_from (courses : list json) :
  forall start,
    length (events_from start courses) =
    list_sum (map (fun course =>
                     (Z.to_nat (int_field course "cycles") * admin_count course)%nat)
                  courses).
Proof.
  induction courses as [| course rest IH]; intros start; simpl; [reflexivity |].
  rewrite length_app, length_spec_course_events, IH; reflexivity.
Qed.

(** X2.  The number of events of a timeline that is produced: every course
    gives, for each of its cycles (none when [cycles] is not positive), one
    event per day value of each of its drugs: one for a [day], one for every
    member of [days], repeated members included. *)
Theorem timeline_length (courses : list json) (now : Z) (evs : list event) :
  timeline_data courses now = Ok evs ->
  length evs =
  list_sum (map (fun course =>
                   (Z.to_nat (int_field course "cycles") *
                    list_sum (map (fun drug => length (spec_admin_days drug))
                                  (drugs_of course)))%nat)
                courses).
Proof.
  intros H; apply timeline_sound in H; subst evs.
  rewrite <- events_from_timeline; apply length_events_from.
Qed.

Lemma timeline_length_witness :
  length (spec_timeline [ac; th] jan_1_2024) = 8%nat.
Proof.
  exact (timeline_length [ac; th] jan_1_2024 _ eq_refl).
Defined.

Lemma admin_days_in_range (len : Z) (drug : json) (d : Z) :
  typed_drug drug = true -> drug_in_range len drug = true ->
  In d (spec_admin_days drug) -> 1 <= d <= len.
Proof.
  destruct drug as [| | | | | kv]; try discriminate.
  unfold typed_drug, drug_in_range, spec_admin_days.
  destruct (assoc "day" kv) as [v |].
  - intros _ Hr [<- | []].
    apply day_in_range_inv in Hr; destruct Hr as (z & -> & Hz); exact Hz.
  - destruct (assoc "days" kv) as [[| | | | l |] |]; try discriminate.
    intros _ Hr Hin; apply in_map_iff in Hin; destruct Hin as (v & <- & Hv).
    rewrite forallb_forall in Hr; apply Hr, day_in_range_inv in Hv.
    destruct Hv as (z & -> & Hz); exact Hz.
Qed.

Lemma wf_drug_typed (drug : json) : wf_drug drug = true -> typed_drug drug = true.
Proof. unfold wf_drug; intros H; apply andb_prop in H; tauto. Qed.

Lemma spec_course_events_inv (course : json) (start : Z) (e : event) :
  In e (spec_course_events course start) ->
  exists c drug d,
    1 <= c <= int_field course "cycles" /\ In drug (drugs_of course) /\
    In d (spec_admin_days drug) /\
    e = spec_event course c (start + (c - 1) * int_field course "cycle_length") drug d.
Proof.
  unfold spec_course_events, spec_cycle_events, spec_cycle_start; intros H.
  apply in_flat_map in H; destruct H as (c & Hc & H).
  apply in_flat_map in H; destruct H as (drug & Hdrug & H).
  apply in_map_iff in H; destruct H as (d & <- & Hd).
  apply In_range1 in Hc; exists c, drug, d; auto.
Qed.

Lemma course_events_within (course : json) (start : Z) (e : event) :
  wf_course course = true -> course_in_range course = true ->
  In e (spec_course_events course start) ->
  start <= Start e /\ Finish e <= start + span course.
Proof.
  intros Hwf Hr He.
  destruct (course_ok_inv _ Hwf Hr)
    as (kv & nm & len & cycles & ds & -> & _ & Hlen & Hcy & Hds & Hd & Hdr & H1 & H2 & Hspan).
  apply spec_course_events_inv in He; destruct He as (c & drug & d & Hc & Hin & Hday & ->).
  rewrite Hspan.
  assert (Hl : int_field (JObj kv) "cycle_length" = len)
    by (unfold int_field, field, getitem; rewrite Hlen; reflexivity).
  assert (Hc' : int_field (JObj kv) "cycles" = cycles)
    by (unfold int_field, field, getitem; rewrite Hcy; reflexivity).
  assert (Hds' : drugs_of (JObj kv) = ds)
    by (unfold drugs_of, field, getitem; rewrite Hds; reflexivity).
  rewrite Hl, Hc', Hds' in *.
  rewrite forallb_forall in Hd, Hdr.
  pose proof (admin_days_in_range len drug d (wf_drug_typed _ (Hd _ Hin))
                (Hdr _ Hin) Hday) as Hrange.
  unfold spec_event; simpl; nia.
Qed.

Lemma forallb_nth (p : json -> bool) (l : list json) (i : nat) :
  forallb p l = true -> (i < length l)%nat -> p (nth i l JNull) = true.
Proof.
  intros H Hi; rewrite forallb_forall in H; apply H, nth_In; exact Hi.
Qed.

(** X3.  Courses do not overlap.  In the timeline of a regimen of the data
    model that ends within the calendar, the events come course by course,
    and every event of the course of index [i] starts on or after the start
    of that course and ends on or before the start of the next one, which is
    [cycles * cycle_length] days later. *)
Theorem courses_do_not_overlap (courses : list json) (now : Z) :
  regimen_ok courses now ->
  exists parts,
    timeline_data courses now = Ok (concat parts) /\
    length parts = length courses /\
    forall i part e,
      nth_error parts i = Some part -> In e part ->
      Course e = field (nth i courses JNull) "name" /\
      spec_course_start now courses i <= Start e /\
      Finish e <= spec_course_start now courses (S i) /\
      spec_course_start now courses (S i) =
        spec_course_start now courses i +
        int_field (nth i courses JNull) "cycles" *
        int_field (nth i courses JNull) "cycle_length".
Proof.
  intros Hok; pose proof Hok as (Hwf & Hr & _).
  exists (map (fun i => spec_course_events (nth i courses JNull)
                          (spec_course_start now courses i))
              (seq 0 (length courses))).
  split; [| split].
  - rewrite (timeline_complete _ _ Hok); unfold spec_timeline.
    rewrite flat_map_concat_map; reflexivity.
  - rewrite length_map, length_seq; reflexivity.
  - intros i part e Hnth He.
    rewrite nth_error_map in Hnth.
    destruct (nth_error (seq 0 (length courses)) i) as [j |] eqn:Hj; [| discriminate].
    assert (Hi : (i < length (seq 0 (length courses)))%nat)
      by (apply nth_error_Some; congruence).
    rewrite length_seq in Hi.
    rewrite (nth_error_nth' _ 0%nat) in Hj by (rewrite length_seq; exact Hi).
    rewrite seq_nth in Hj by exact Hi; simpl in Hj.
    injection Hj as <-; injection Hnth as <-.
    pose proof (course_events_within _ _ e (forallb_nth _ _ i Hwf Hi)
                  (forallb_nth _ _ i Hr Hi) He) as [Hlo Hhi].
    apply spec_course_events_inv in He; destruct He as (c & drug & d & _ & _ & _ & ->).
    simpl; repeat split; auto.
Qed.

Lemma courses_do_not_overlap_witness :
  exists parts,
    timeline_data [ac; th] jan_1_2024 = Ok (concat parts) /\
    length parts = 2%nat.
Proof.
  assert (Hok : regimen_ok [ac; th] jan_1_2024)
    by (repeat split; vm_compute; discriminate).
  destruct (courses_do_not_overlap [ac; th] jan_1_2024 Hok) as (parts & H1 & H2 & _).
  exists parts; split; assumption.
Defined.

Lemma courses_loop_restart (courses : list json) (prev : option json) (cur : Z)
    (evs : list event) :
  courses_loop prev cur courses = Ok evs ->
  courses_loop None (cur + span_of prev) courses = Ok evs.
Proof.
  destruct courses as [| course rest]; simpl; intros H; [exact H |].
  inv_bind H. inv_bind H. inv_bind H. inv_bind H.
  rewrite E, E0, E1; simpl.
  apply advance_Ok in E2; subst; exact H.
Qed.

Lemma courses_loop_app (cs1 cs2 : list json) :
  forall prev cur evs,
    courses_loop prev cur (cs1 ++ cs2) = Ok evs ->
    exists e1 e2,
      courses_loop prev cur cs1 = Ok e1 /\
      timeline_data cs2 (cur + span_of prev + total_span cs1) = Ok e2 /\
      evs = e1 ++ e2.
Proof.
  induction cs1 as [| course rest IH]; simpl; intros prev cur evs H.
  - exists [], evs; rewrite Z.add_0_r; repeat split.
    apply courses_loop_restart; exact H.
  - inv_bind H. inv_bind H. inv_bind H. inv_bind H. inv_bind H. inv_bind H.
    inv_bind H. inv_Ok H.
    destruct (IH _ _ _ E5) as (e1 & e2 & H1 & H2 & ->).
    exists (concat v4 ++ e1), e2.
    rewrite E, E0, E1; simpl; rewrite E2; simpl; rewrite E3; simpl.
    rewrite E4; simpl; rewrite H1; simpl.
    apply advance_Ok in E2; subst v2; simpl in H2.
    rewrite app_assoc; repeat split.
    rewrite <- H2; f_equal; lia.
Qed.

(** X4.  A regimen in two parts.  When the timeline of the courses
    [cs1 ++ cs2] is produced, it is the timeline of [cs1] from the same
    date followed by the timeline of [cs2] from the date at which [cs1]
    ends, the sum of [cycles * cycle_length] over [cs1] later; both are
    produced. *)
Theorem timeline_app (cs1 cs2 : list json) (now : Z) (evs : list event) :
  timeline_data (cs1 ++ cs2) now = Ok evs ->
  exists e1 e2,
    timeline_data cs1 now = Ok e1 /\
    timeline_data cs2 (now + total_span cs1) = Ok e2 /\
    evs = e1 ++ e2.
Proof.
  unfold timeline_data at 1 2; intros H.
  apply courses_loop_app in H; destruct H as (e1 & e2 & H1 & H2 & ->).
  simpl in H2; rewrite Z.add_0_r in H2; eauto.
Qed.

Lemma timeline_app_witness :
  exists e1 e2,
    timeline_data [ac] jan_1_2024 = Ok e1 /\
    timeline_data [th] (jan_1_2024 + total_span [ac]) = Ok e2 /\
    spec_timeline [ac; th] jan_1_2024 = e1 ++ e2.
Proof.
  exact (timeline_app [ac] [th] jan_1_2024 _ eq_refl).
Defined.

Lemma courses_loop_Err_app (cs1 cs2 : list json) (e : exn) :
  forall prev cur,
    courses_loop prev cur cs1 = Err e ->
    courses_loop prev cur (cs1 ++ cs2) = Err e.
Proof.
  induction cs1 as [| course rest IH]; simpl; intros prev cur H; [discriminate |].
  destruct (getitem course "name"); simpl in *; [| exact H].
  destruct (getitem course "cycle_length"); simpl in *; [| exact H].
  destruct (getitem course "cycles") as [cy |]; simpl in *; [| exact H].
  destruct (advance prev cur) as [cur' |]; simpl in *; [| exact H].
  destruct (int_of cy); simpl in *; [| exact H].
  destruct (mapM _ _); simpl in *; [| exact H].
  destruct (courses_loop (Some course) cur' rest) eqn:Hrest; simpl in *;
    [discriminate |].
  injection H as ->; rewrite (IH _ _ Hrest); reflexivity.
Qed.

(** X5.  No partial result.  When the timeline of the courses [cs1] fails
    with an exception, the timeline of [cs1] followed by any further courses
    fails with the same exception: the events of the courses that were
    already processed are lost. *)
Theorem timeline_failure_propagates (cs1 cs2 : list json) (now : Z) (e : exn) :
  timeline_data cs1 now = Err e ->
  timeline_data (cs1 ++ cs2) now = Err e.
Proof. apply courses_loop_Err_app. Qed.

Lemma timeline_failure_propagates_witness :
  timeline_data ([ac; JObj []] ++ [th]) jan_1_2024 = Err (KeyError "name").
Proof.
  apply (timeline_failure_propagates [ac; JObj []] [th] jan_1_2024); reflexivity.
Defined.

Lemma map_flat_map {A B C : Type} (f : B -> C) (g : A -> list B) (l : list A) :
  map f (flat_map g l) = flat_map (fun x => map f (g x)) l.
Proof.
  induction l as [| a l IH]; simpl; [reflexivity |].
  rewrite map_app, IH; reflexivity.
Qed.

Lemma spec_course_events_shift (course : json) (start k : Z) :
  spec_course_events course (start + k) =
  map (shift_event k) (spec_course_events course start).
Proof.
  unfold spec_course_events, spec_cycle_events, spec_cycle_start.
  rewrite map_flat_map; apply flat_map_ext; intros c.
  rewrite map_flat_map; apply flat_map_ext; intros drug.
  rewrite map_map; apply map_ext; intros d.
  unfold shift_event, spec_event; simpl; f_equal; lia.
Qed.

Lemma events_from_shift (courses : list json) (k : Z) :
  forall start,
    events_from (start + k) courses = map (shift_event k) (events_from start courses).
Proof.
  induction courses as [| course rest IH]; intros start; simpl; [reflexivity |].
  rewrite map_app, spec_course_events_shift, <- IH.
  do 2 f_equal; lia.
Qed.

(** X6.  The date of the day moves the timeline as a whole.  When the
    timeline of the same courses is produced from the date [now] and from
    the date [now + k], the second is the first with every event moved by
    [k] days: same events, same order, same courses, cycles and drugs. *)
Theorem timeline_shift (courses : list json) (now k : Z) (evs evs' : list event) :
  timeline_data courses now = Ok evs ->
  timeline_data courses (now + k) = Ok evs' ->
  evs' = map (fun e => mk_event (Course e) (Cycle e) (Drug e)
                                (Start e + k) (Finish e + k)) evs.
Proof.
  intros H H'; apply timeline_sound in H, H'; subst.
  rewrite <- !events_from_timeline; apply events_from_shift.
Qed.

Lemma timeline_shift_witness :
  spec_timeline [ac; th] (jan_1_2024 + 30) =
  map (fun e => mk_event (Course e) (Cycle e) (Drug e) (Start e + 30) (Finish e + 30))
      (spec_timeline [ac; th] jan_1_2024).
Proof.
  exact (timeline_shift [ac; th] jan_1_2024 30 _ _ eq_refl eq_refl).
Defined.

Lemma courses_loop_fields (courses : list json) :
  forall prev cur evs,
    courses_loop prev cur courses = Ok evs ->
    forall course, In course courses ->
      exists nm cl cy n,
        getitem course "name" = Ok nm /\
        getitem course "cycle_length" = Ok cl /\
        getitem course "cycles" = Ok cy /\ int_of cy = Ok n /\
        (1 <= n ->
         exists ds l, getitem course "drugs" = Ok ds /\ iter ds = Ok l).
Proof.
  induction courses as [| course rest IH]; simpl; intros prev cur evs H c Hin;
    [destruct Hin |].
  inv_bind H. inv_bind H. inv_bind H. inv_bind H. inv_bind H. inv_bind H.
  inv_bind H. inv_Ok H.
  destruct Hin as [<- | Hin]; [| eapply IH; eassumption].
  exists v, v0, v1, v3; repeat split; auto.
  intros Hn.
  assert (Hin : In 1 (range1 v3)) by (apply In_range1; lia).
  destruct (mapM_Ok_In _ _ _ E4 1 Hin) as (es & Hes & _).
  unfold cycle_events in Hes.
  inv_bind Hes. inv_bind Hes. inv_bind Hes. inv_bind Hes. eauto.
Qed.

(** X7.  What the timeline asks of every course.  When a timeline is
    produced, every course of the list, with or without drugs, is a [dict]
    with the keys [name], [cycle_length] and [cycles], and [cycles] is an
    integer, as [range] wants it; a course with at least one cycle also has
    a [drugs] value that can be iterated.  So one course without a name
    makes the whole timeline fail. *)
Theorem timeline_needs_course_fields (courses : list json) (now : Z)
    (evs : list event) (course : json) :
  timeline_data courses now = Ok evs -> In course courses ->
  exists nm cl cy n,
    getitem course "name" = Ok nm /\
    getitem course "cycle_length" = Ok cl /\
    getitem course "cycles" = Ok cy /\ int_of cy = Ok n /\
    (1 <= n ->
     exists ds l, getitem course "drugs" = Ok ds /\ iter ds = Ok l).
Proof.
  intros H; exact (courses_loop_fields courses None now evs H course).
Qed.

Lemma timeline_needs_course_fields_witness :
  exists nm cl cy n,
    getitem th "name" = Ok nm /\
    getitem th "cycle_length" = Ok cl /\
    getitem th "cycles" = Ok cy /\ int_of cy = Ok n /\
    (1 <= n ->
     exists ds l, getitem th "drugs" = Ok ds /\ iter ds = Ok l).
Proof.
  apply (timeline_needs_course_fields [ac; th] jan_1_2024 _ th eq_refl).
  right; left; reflexivity.
Defined.

(** ** The calendar and the timeline of one course *)

Lemma included_admin_day (d : Z) (drug : json) :
  wf_drug drug = true ->
  spec_included d drug = true <-> In d (spec_admin_days drug).
Proof.
  intros Hwf; apply wf_drug_typed in Hwf.
  destruct drug as [| | | | | kv]; try discriminate.
  unfold typed_drug, spec_included, spec_admin_days in *.
  destruct (assoc "day" kv) as [[| | z | | |] |]; try discriminate.
  - simpl; rewrite Z.eqb_eq; split; [auto | intros [H | []]; exact H].
  - destruct (assoc "days" kv) as [[| | | | l |] |]; try discriminate.
    rewrite existsb_exists, in_map_iff; rewrite forallb_forall in Hwf.
    split; intros (v & H1 & H2).
    + exists v; split; [| exact H1].
      specialize (Hwf v H1); destruct v; try discriminate.
      simpl in *; apply Z.eqb_eq in H2; exact H2.
    + exists v; split; [exact H2 |].
      specialize (Hwf v H2); destruct v; try discriminate.
      simpl in *; apply Z.eqb_eq; exact H1.
Qed.

(** X8.  The calendar and the timeline agree.  For a well-formed course
    whose numbers are in their ranges, and any of its cycles [c]: a day of
    the calendar has treatment exactly when the timeline of the course has
    an event that starts on that day of cycle [c], that is
    [(c - 1) * cycle_length + day - 1] days after the start. *)
Theorem calendar_agrees_with_timeline (course : json) (cycle_num now c : Z)
    (cal : list day_entry) (evs : list event) (e : day_entry) :
  wf_course course = true -> course_in_range course = true ->
  create_cycle_calendar course cycle_num = Ok cal ->
  timeline_data [course] now = Ok evs ->
  1 <= c <= int_field course "cycles" -> In e cal ->
  (has_treatment e = true <->
   exists ev, In ev evs /\
     Start ev = now + (c - 1) * int_field course "cycle_length" + (day e - 1)).
Proof.
  intros Hwf Hr Hcal Hev Hc He.
  rewrite (calendar_refines _ cycle_num Hwf) in Hcal; inv_Ok Hcal.
  apply timeline_sound in Hev; subst evs.
  unfold spec_timeline; simpl; rewrite app_nil_r.
  pose proof (spec_resolve_cycle_days _ _ He) as Hday.
  unfold spec_resolve_cycle in He; apply in_map_iff in He.
  destruct He as (d & <- & _); simpl in *.
  destruct (course_ok_inv _ Hwf Hr)
    as (kv & nm & len & cycles & ds & -> & _ & Hlen & Hcy & Hds & Hd & Hdr & H1 & H2 & _).
  assert (Hl : int_field (JObj kv) "cycle_length" = len)
    by (unfold int_field, field, getitem; rewrite Hlen; reflexivity).
  assert (Hds' : drugs_of (JObj kv) = ds)
    by (unfold drugs_of, field, getitem; rewrite Hds; reflexivity).
  rewrite Hl, Hds' in *.
  rewrite forallb_forall in Hd, Hdr.
  rewrite existsb_exists; split.
  - intros (drug & Hin & Hinc).
    apply (included_admin_day d drug (Hd _ Hin)) in Hinc.
    exists (spec_event (JObj kv) c (now + (c - 1) * len) drug d); split.
    + unfold spec_course_events; apply in_flat_map.
      exists c; split; [apply In_range1; exact Hc |].
      unfold spec_cycle_events, spec_cycle_start; apply in_flat_map.
      exists drug; rewrite Hds', Hl; split; [exact Hin |].
      apply in_map; exact Hinc.
    + simpl; lia.
  - intros (ev & Hin & Hstart).
    apply spec_course_events_inv in Hin.
    destruct Hin as (c' & drug & d' & Hc' & Hdrug & Hd' & ->).
    rewrite Hl, Hds' in *; simpl in Hstart.
    pose proof (admin_days_in_range len drug d' (wf_drug_typed _ (Hd _ Hdrug))
                  (Hdr _ Hdrug) Hd') as Hrange.
    assert (c' = c) by nia; subst c'.
    assert (d' = d) by lia; subst d'.
    exists drug; split; [exact Hdrug |].
    apply (included_admin_day d drug (Hd _ Hdrug)); exact Hd'.
Qed.

Lemma calendar_agrees_with_timeline_witness :
  has_treatment (mk_day_entry 3 [spec_entry 3 (JObj trastuzumab)] true) = true <->
  exists ev, In ev (spec_timeline [th] jan_1_2024) /\
    Start ev = jan_1_2024 + (2 - 1) * int_field th "cycle_length" + (3 - 1).
Proof.
  apply (calendar_agrees_with_timeline th 1 jan_1_2024 2
           (spec_resolve_cycle th) (spec_timeline [th] jan_1_2024)
           (mk_day_entry 3 [spec_entry 3 (JObj trastuzumab)] true)
           eq_refl eq_refl eq_refl eq_refl).
  - vm_compute; split; discriminate.
  - right; right; left; reflexivity.
Defined.

(** ** Further properties of the calendar *)

Lemma mapM_In_inv {A B : Type} (f : A -> result B) (l : list A) (bs : list B) (b : B) :
  mapM f l = Ok bs -> In b bs -> exists a, In a l /\ f a = Ok b.
Proof.
  intros H; apply mapM_Forall2 in H.
  induction H as [| a b' l bs Hab _ IH]; intros [].
  - subst; exists a; split; [left; reflexivity | exact Hab].
  - destruct (IH H) as (a' & ? & ?); exists a'; split; [right |]; assumption.
Qed.

Lemma calendar_inv (course : json) (cycle_num : Z) (cal : list day_entry) :
  create_cycle_calendar course cycle_num = Ok cal ->
  exists cl n,
    getitem course "cycle_length" = Ok cl /\ int_of cl = Ok n /\
    Forall2 (fun d e => calendar_day course d = Ok e) (range1 n) cal.
Proof.
  unfold create_cycle_calendar; intros H.
  inv_bind H. inv_bind H. apply mapM_Forall2 in H; eauto.
Qed.

Lemma calendar_day_inv (course : json) (d : Z) (e : day_entry) :
  calendar_day course d = Ok e ->
  exists ds l ess,
    getitem course "drugs" = Ok ds /\ iter ds = Ok l /\
    mapM (drug_on_day d) l = Ok ess /\
    e = mk_day_entry d (concat ess) (0 <? Z.of_nat (length (concat ess))).
Proof.
  unfold calendar_day, day_drugs; intros H.
  inv_bind H. inv_bind H. inv_bind H. inv_bind E1. inv_Ok E1. inv_Ok H.
  eauto 10.
Qed.

(** X9.  Every calendar that is returned, also for a course whose records
    are malformed or incomplete, has as many entries as [cycle_length] says
    (none when it is not positive), the entry at position [i] (from 0) is
    the one of day [i + 1], and [has_treatment] is true exactly when the
    list of drugs of the day is not empty. *)
Theorem calendar_shape_any_input (course : json) (cycle_num : Z)
    (cal : list day_entry) :
  create_cycle_calendar course cycle_num = Ok cal ->
  exists cl n,
    getitem course "cycle_length" = Ok cl /\ int_of cl = Ok n /\
    length cal = Z.to_nat n /\
    forall i e, nth_error cal i = Some e ->
      day e = Z.of_nat i + 1 /\
      (has_treatment e = true <-> drugs e <> []).
Proof.
  intros H; destruct (calendar_inv _ _ _ H) as (cl & n & Hcl & Hn & HF).
  exists cl, n; repeat split; auto.
  - rewrite <- (Forall2_length HF); apply length_range1.
  - pose proof (Forall2_nth_error _ _ _ HF i) as Hi; rewrite H0 in Hi.
    destruct (nth_error (range1 n) i) as [d |] eqn:Hd; [| destruct Hi].
    apply nth_error_range1 in Hd; destruct Hd as [-> _].
    apply calendar_day_inv in Hi; destruct Hi as (? & ? & ess & _ & _ & _ & ->).
    simpl; lia.
  - pose proof (Forall2_nth_error _ _ _ HF i) as Hi; rewrite H0 in Hi.
    destruct (nth_error (range1 n) i) as [d |]; [| destruct Hi].
    apply calendar_day_inv in Hi; destruct Hi as (? & ? & ess & _ & _ & _ & ->).
    simpl; destruct (concat ess); simpl; [discriminate | congruence].
  - pose proof (Forall2_nth_error _ _ _ HF i) as Hi; rewrite H0 in Hi.
    destruct (nth_error (range1 n) i) as [d |]; [| destruct Hi].
    apply calendar_day_inv in Hi; destruct Hi as (? & ? & ess & _ & _ & _ & ->).
    simpl; destruct (concat ess); simpl; [congruence | intros _].
    apply Z.ltb_lt; lia.
Qed.

Lemma calendar_shape_any_input_witness :
  exists cl n,
    getitem (course_with 3 1 [day_5; never_given]) "cycle_length" = Ok cl /\
    int_of cl = Ok n /\
    length [mk_day_entry 1 [] false; mk_day_entry 2 [] false; mk_day_entry 3 [] false]
      = Z.to_nat n.
Proof.
  destruct (calendar_shape_any_input (course_with 3 1 [day_5; never_given]) 1 _ eq_refl)
    as (cl & n & H1 & H2 & H3 & _).
  exists cl, n; auto.
Defined.

Lemma drug_on_day_inv (d : Z) (drug : json) (es : list drug_entry) :
  drug_on_day d drug = Ok es ->
  es = [] \/
  exists de, es = [de] /\ name de = field drug "name" /\ route de = field drug "route".
Proof.
  unfold drug_on_day; intros H.
  inv_bind H; destruct v.
  - inv_bind H; inv_Ok H; right; exists v; split; [reflexivity |].
    unfold single_entry in E0; inv_bind E0; inv_bind E0; inv_bind E0; inv_Ok E0.
    simpl; rewrite (field_Ok _ _ _ E1), (field_Ok _ _ _ E3); auto.
  - inv_bind H; destruct v; [| inv_Ok H; left; reflexivity].
    inv_bind H; inv_Ok H; right; exists v; split; [reflexivity |].
    unfold multi_entry in E1; inv_bind E1; inv_bind E1; inv_bind E1; inv_Ok E1.
    simpl; rewrite (field_Ok _ _ _ E3), (field_Ok _ _ _ E4); auto.
Qed.

Lemma day_drugs_order (d : Z) (ds : list json) (ess : list (list drug_entry)) :
  mapM (drug_on_day d) ds = Ok ess ->
  map (fun de => (name de, route de)) (concat ess) =
  map (fun drug => (field drug "name", field drug "route"))
      (filter (fun drug => match drug_on_day d drug with
                           | Ok (_ :: _) => true
                           | _ => false
                           end) ds).
Proof.
  revert ess; induction ds as [| drug ds IH]; simpl; intros ess H.
  - inv_Ok H; reflexivity.
  - inv_bind H. inv_bind H. inv_Ok H; simpl.
    rewrite map_app, (IH _ E0), E.
    destruct (drug_on_day_inv _ _ _ E) as [-> | (de & -> & Hn & Hr)]; simpl;
      [reflexivity |].
    rewrite Hn, Hr; reflexivity.
Qed.

(** X10.  The drugs of a day keep the order of the course and none is
    repeated.  In every entry of a calendar that is returned for a course
    whose [drugs] is a list, the names and routes listed are those of a
    selection of the drugs of the course, in the order of that list: each
    drug gives at most one line per day, also when its [days] repeat the
    day. *)
Theorem calendar_keeps_order (course : json) (cycle_num : Z)
    (cal : list day_entry) (ds : list json) (e : day_entry) :
  create_cycle_calendar course cycle_num = Ok cal ->
  getitem course "drugs" = Ok (JList ds) ->
  In e cal ->
  exists selected : json -> bool,
    map (fun de => (name de, route de)) (drugs e) =
    map (fun drug => (field drug "name", field drug "route")) (filter selected ds) /\
    (length (drugs e) <= length ds)%nat.
Proof.
  unfold create_cycle_calendar; intros H Hds He.
  inv_bind H. inv_bind H.
  destruct (mapM_In_inv _ _ _ _ H He) as (d & _ & Hd).
  apply calendar_day_inv in Hd; destruct Hd as (ds' & l & ess & Hds' & Hl & Hess & ->).
  rewrite Hds in Hds'; inv_Ok Hds'; simpl in Hl; inv_Ok Hl.
  eexists; split; [apply day_drugs_order; exact Hess |].
  simpl; rewrite <- (length_map (fun de => (name de, route de))).
  rewrite (day_drugs_order _ _ _ Hess), length_map; apply filter_length_le.
Qed.

Lemma calendar_keeps_order_witness :
  exists selected : json -> bool,
    map (fun de => (name de, route de))
        (drugs (mk_day_entry 3 [spec_entry 3 pertuzumab] true)) =
    map (fun drug => (field drug "name", field drug "route"))
        (filter selected [day_5; pertuzumab]) /\
    (length (drugs (mk_day_entry 3 [spec_entry 3 pertuzumab] true)) <= 2)%nat.
Proof.
  apply (calendar_keeps_order (course_with 3 1 [day_5; pertuzumab]) 1
           (spec_resolve_cycle (course_with 3 1 [day_5; pertuzumab]))
           [day_5; pertuzumab] _ eq_refl eq_refl).
  right; right; left; reflexivity.
Defined.

(** X11.  What the calendar does before it looks at any drug.  For a course
    that is a [dict]: without the key [cycle_length] it raises [KeyError]
    with that key; with a [cycle_length] that is not an integer it raises
    [TypeError]; with a [cycle_length] below 1 it returns the empty calendar,
    whatever else the course holds or lacks; and with a [cycle_length] of at
    least 1 and no key [drugs] it raises [KeyError] with the key [drugs]. *)
Theorem calendar_before_any_drug (kv : list (string * json)) (cycle_num : Z) :
  match assoc "cycle_length" kv with
  | None =>
      create_cycle_calendar (JObj kv) cycle_num = Err (KeyError "cycle_length")
  | Some cl =>
      match int_of cl with
      | Err _ => create_cycle_calendar (JObj kv) cycle_num = Err TypeError
      | Ok n =>
          (n < 1 -> create_cycle_calendar (JObj kv) cycle_num = Ok []) /\
          (1 <= n -> assoc "drugs" kv = None ->
           create_cycle_calendar (JObj kv) cycle_num = Err (KeyError "drugs"))
      end
  end.
Proof.
  unfold create_cycle_calendar, getitem.
  destruct (assoc "cycle_length" kv) as [cl |]; simpl; [| reflexivity].
  destruct cl as [| b | n | | |]; simpl; try reflexivity.
  - split.
    + intros Hn; unfold range1.
      replace (Z.to_nat (if b then 1 else 0)) with 0%nat by (destruct b; lia).
      reflexivity.
    + intros Hn Hds; destruct b; [| lia].
      simpl; unfold calendar_day, getitem; rewrite Hds; reflexivity.
  - split.
    + intros Hn; unfold range1.
      replace (Z.to_nat n) with 0%nat by lia; reflexivity.
    + intros Hn Hds; unfold range1.
      replace (Z.to_nat n) with (S (Z.to_nat (n - 1))) by lia.
      simpl; unfold calendar_day, getitem; rewrite Hds; reflexivity.
Qed.

Lemma calendar_before_any_drug_witness :
  create_cycle_calendar (JObj [("cycle_length", JInt 0)]) 1 = Ok [] /\
  create_cycle_calendar (JObj [("cycle_length", JInt 2)]) 1 = Err (KeyError "drugs").
Proof.
  split.
  - apply (proj1 (calendar_before_any_drug [("cycle_length", JInt 0)] 1)); lia.
  - apply (proj2 (calendar_before_any_drug [("cycle_length", JInt 2)] 1));
      [lia | reflexivity].
Defined.

Lemma concat_mapM_skip {A B : Type} (f : A -> result (list B)) (pre post : list A)
    (a : A) :
  f a = Ok [] ->
  (ess <- mapM f (pre ++ a :: post) ;; Ok (concat ess)) =
  (ess <- mapM f (pre ++ post) ;; Ok (concat ess)).
Proof.
  intros Ha; induction pre as [| x pre IH]; simpl.
  - rewrite Ha; simpl; destruct (mapM f post); reflexivity.
  - destruct (f x) as [b |]; simpl; [| reflexivity].
    destruct (mapM f (pre ++ a :: post)) as [bs |],
             (mapM f (pre ++ post)) as [bs' |]; simpl in *; congruence.
Qed.

Lemma drug_on_day_shapeless (d : Z) (kv : list (string * json)) :
  assoc "day" kv = None -> assoc "days" kv = None ->
  drug_on_day d (JObj kv) = Ok [].
Proof.
  intros H1 H2; unfold drug_on_day, single_test, multi_test; simpl.
  rewrite H1; simpl; rewrite H2; reflexivity.
Qed.

Lemma drug_events_shapeless (nm : json) (c cs : Z) (kv : list (string * json)) :
  assoc "day" kv = None -> assoc "days" kv = None ->
  drug_events nm c cs (JObj kv) = Ok [].
Proof.
  intros H1 H2; unfold drug_events; simpl.
  rewrite H1; simpl; rewrite H2; reflexivity.
Qed.

(** X12.  A record without shape is skipped in silence.  A drug that has
    neither a [day] nor a [days] takes no part in the calendar or in the
    timeline, whatever else it holds or lacks (a name, a dose): the results
    for the course are those for the same course without the record, equal
    calendars or equal exceptions, and equal timelines or equal
    exceptions. *)
Theorem shapeless_drug_skipped (course course' : json) (cycle_num now : Z)
    (pre post : list json) (kv : list (string * json)) :
  assoc "day" kv = None -> assoc "days" kv = None ->
  getitem course "drugs" = Ok (JList (pre ++ JObj kv :: post)) ->
  getitem course' "drugs" = Ok (JList (pre ++ post)) ->
  (forall k, k <> "drugs" -> getitem course' k = getitem course k) ->
  create_cycle_calendar course cycle_num = create_cycle_calendar course' cycle_num /\
  timeline_data [course] now = timeline_data [course'] now.
Proof.
  intros Hday Hdays Hds Hds' Hsame; split.
  - symmetry; apply calendar_ext; [apply Hsame; discriminate |].
    intros d _; unfold calendar_day, day_drugs; rewrite Hds, Hds'; simpl.
    destruct (concat_mapM_skip (drug_on_day d) pre post (JObj kv)
                (drug_on_day_shapeless d kv Hday Hdays)).
    reflexivity.
  - unfold timeline_data; simpl.
    rewrite !(Hsame "name"), !(Hsame "cycle_length"), !(Hsame "cycles")
      by discriminate.
    destruct (getitem course "name") as [nm |]; simpl; [| reflexivity].
    destruct (getitem course "cycle_length") as [cl |]; simpl; [| reflexivity].
    destruct (getitem course "cycles") as [cy |]; simpl; [| reflexivity].
    destruct (int_of cy) as [n |]; simpl; [| reflexivity].
    rewrite (mapM_ext (cycle_events course nm cl now) (cycle_events course' nm cl now));
      [reflexivity |].
    intros c _; unfold cycle_events; rewrite Hds, Hds'; simpl.
    destruct (int_of cl) as [len |]; simpl; [| reflexivity].
    destruct (plus_days now ((c - 1) * len)) as [cs |]; simpl; [| reflexivity].
    apply (concat_mapM_skip (drug_events nm c cs) pre post (JObj kv)).
    apply drug_events_shapeless; assumption.
Qed.

Lemma shapeless_drug_skipped_witness :
  create_cycle_calendar (course_with 3 1 [JObj [("dose", JStr "1mg")]; pertuzumab]) 1 =
  create_cycle_calendar (course_with 3 1 [pertuzumab]) 1 /\
  timeline_data [course_with 3 1 [JObj [("dose", JStr "1mg")]; pertuzumab]] jan_1_2024 =
  timeline_data [course_with 3 1 [pertuzumab]] jan_1_2024.
Proof.
  apply (shapeless_drug_skipped
           (course_with 3 1 [JObj [("dose", JStr "1mg")]; pertuzumab])
           (course_with 3 1 [pertuzumab]) 1 jan_1_2024 [] [pertuzumab]
           [("dose", JStr "1mg")] eq_refl eq_refl eq_refl eq_refl).
  intros k Hk; unfold course_with, getitem; simpl.
  destruct (String.eqb k "name"), (String.eqb k "cycle_length"),
    (String.eqb k "cycles"); try reflexivity.
  destruct (String.eqb_spec k "drugs"); [contradiction | reflexivity].
Defined.

(** X13.  The calendar reads two fields of the course and nothing else.
    Two courses with the same [cycle_length] and the same [drugs] (values or
    exceptions of the lookup) have the same calendar, for any two cycle
    numbers: the name, the number of cycles and the supportive care play no
    part. *)
Theorem calendar_reads_two_fields (c1 c2 : json) (n1 n2 : Z) :
  getitem c1 "cycle_length" = getitem c2 "cycle_length" ->
  getitem c1 "drugs" = getitem c2 "drugs" ->
  create_cycle_calendar c1 n1 = create_cycle_calendar c2 n2.
Proof.
  intros Hcl Hds.
  transitivity (create_cycle_calendar c1 n2); [reflexivity |].
  apply calendar_ext; [exact Hcl |].
  intros d _; unfold calendar_day; rewrite Hds; reflexivity.
Qed.

Lemma calendar_reads_two_fields_witness :
  create_cycle_calendar th 1 =
  create_cycle_calendar
    (JObj [("drugs", JList [JObj trastuzumab]); ("cycle_length", JInt 7)]) 2.
Proof.
  apply (calendar_reads_two_fields th _ 1 2); reflexivity.
Defined.

(** ** Further properties of the loading *)

Lemma prefix_app (s1 s2 : string) :
  String.prefix s1 s2 = true <-> exists rest, s2 = (s1 ++ rest)%string.
Proof.
  revert s2; induction s1 as [| a s1 IH]; intros s2.
  - split; [intros _; exists s2; reflexivity | intros _; destruct s2; reflexivity].
  - destruct s2 as [| b s2]; simpl.
    + split; [discriminate | intros [r Hr]; discriminate].
    + destruct (ascii_dec a b) as [-> | Hab].
      * rewrite IH; split; intros [r Hr]; exists r; congruence.
      * split; [discriminate | intros [r Hr]; congruence].
Qed.

(** X14.  The courses of a mapping are the values of the keys that start
    with "course", and only the key decides: a value is among the courses
    exactly when the mapping binds it to a key of the form "course..." ,
    whatever the value is; and there are no more courses than keys. *)
Theorem courses_by_key_prefix (kv : list (string * json)) :
  exists courses,
    get_treatment_courses (JObj kv) = Ok courses /\
    (forall v, In v courses <->
       exists k rest, In (k, v) kv /\ k = ("course" ++ rest)%string) /\
    (length courses <= length kv)%nat.
Proof.
  exists (course_values kv); split; [reflexivity |]; split.
  - intros v; unfold course_values; rewrite in_map_iff; split.
    + intros ([k v'] & <- & Hin); apply filter_In in Hin.
      destruct Hin as [Hin Hp]; apply prefix_app in Hp; destruct Hp as [rest Hr].
      exists k, rest; auto.
    + intros (k & rest & Hin & Hk); exists (k, v); split; [reflexivity |].
      apply filter_In; split; [exact Hin |].
      apply prefix_app; exists rest; exact Hk.
  - unfold course_values; rewrite length_map; apply filter_length_le.
Qed.

(** X15.  [main] has courses to show exactly when the file parses to a
    mapping that is not empty: then the courses are those of the mapping.
    An empty mapping is treated like a file that could not be loaded, and a
    parsed value that is not a mapping never gives courses. *)
Theorem main_courses_iff (json_loads : string -> result json) (content : string)
    (courses : list json) :
  main_courses json_loads content = Ok (Some courses) <->
  exists kv, json_loads content = Ok (JObj kv) /\ kv <> [] /\
             get_treatment_courses (JObj kv) = Ok courses.
Proof.
  unfold main_courses, load_json_file; split.
  - destruct (json_loads content) as [data |]; [| discriminate].
    destruct data as [| b | n | s | l | kv]; simpl.
    + discriminate.
    + destruct b; discriminate.
    + destruct (n =? 0); discriminate.
    + destruct (String.eqb s ""); discriminate.
    + destruct l; discriminate.
    + destruct kv as [| p kv]; [discriminate |].
      intros H; inv_Ok H; exists (p :: kv); repeat split; discriminate.
  - intros (kv & -> & Hkv & H); simpl.
    destruct kv; [congruence |]; simpl in *; inv_Ok H; reflexivity.
Qed.

Lemma main_courses_iff_witness :
  main_courses (fun _ => Ok (JObj [("indication", JStr "HER2+"); ("course1", ac)])) ""
  = Ok (Some [ac]).
Proof.
  apply (main_courses_iff _ "" [ac]).
  exists [("indication", JStr "HER2+"); ("course1", ac)].
  repeat split; discriminate.
Defined.

(** ** The display of the calendar *)

Lemma day_blocks_by_day (format : json -> string) (cal : list day_entry) :
  forall idx,
    (forall i e, nth_error cal i = Some e -> day e = Z.of_nat (idx + i) + 1) ->
    day_blocks format idx cal = week_layout format cal.
Proof.
  unfold week_layout; induction cal as [| e rest IH]; intros idx Hday;
    [reflexivity |].
  pose proof (Hday 0%nat e eq_refl) as He; rewrite Nat.add_0_r in He.
  cbn [day_blocks flat_map app].
  rewrite (IH (S idx)).
  - assert (Hcol : (idx mod 7)%nat = Z.to_nat ((day e - 1) mod 7)).
    { rewrite He; replace (Z.of_nat idx + 1 - 1) with (Z.of_nat idx) by lia.
      change 7 with (Z.of_nat 7); rewrite <- Nat2Z.inj_mod, Nat2Z.id; reflexivity. }
    assert (Hbrk : ((idx + 1) mod 7 =? 0)%nat = (day e mod 7 =? 0)).
    { rewrite He; replace (Z.of_nat idx + 1) with (Z.of_nat (idx + 1)) by lia.
      change 7 with (Z.of_nat 7); rewrite <- Nat2Z.inj_mod.
      destruct (Nat.eqb_spec ((idx + 1) mod 7) 0), (Z.eqb_spec (Z.of_nat ((idx + 1) mod 7)) 0);
        try reflexivity; lia. }
    rewrite Hcol, Hbrk; reflexivity.
  - intros i e' Hi; rewrite (Hday (S i) e' Hi); lia.
Qed.

(** X16.  The calendar is laid out by weeks.  What [display_cycle_calendar]
    puts on the page, when the calendar is returned, is the row of seven
    columns and then, day by day, the container of the day, which is in
    column [(d - 1) mod 7] for day [d], with a line break outside the columns
    after each day that is a multiple of 7; when the calendar raises, so does
    the display. *)
Theorem display_by_weeks (format : json -> string) (course : json) (cycle_num : Z) :
  match create_cycle_calendar course cycle_num with
  | Ok cal =>
      display_cycle_calendar format course cycle_num =
      Ok (columns 7 ::
          flat_map (fun e =>
                      container (Z.to_nat ((day e - 1) mod 7)) (day_calls format e)
                      :: (if day e mod 7 =? 0 then [outside (write "")] else []))
                   cal)
  | Err e => display_cycle_calendar format course cycle_num = Err e
  end.
Proof.
  unfold display_cycle_calendar.
  destruct (create_cycle_calendar course cycle_num) as [cal | e] eqn:Hcal; simpl;
    [| reflexivity].
  rewrite (day_blocks_by_day format cal 0); [reflexivity |].
  intros i e He.
  destruct (calendar_shape_any_input _ _ _ Hcal) as (_ & _ & _ & _ & _ & Hday).
  destruct (Hday i e He) as [-> _]; reflexivity.
Qed.

(** X17.  A day shows the hospital sign exactly when it lists a drug.  In
    the display of a calendar that is returned, the container of a day
    without drugs holds the plain heading of the day and the text "No
    treatments", and the container of a day with drugs holds the heading
    with the sign and one text per drug, in the order of the calendar; no
    container has the sign with "No treatments" or drugs without the
    sign. *)
Theorem display_sign_iff_drugs (format : json -> string) (course : json)
    (cycle_num : Z) (cal : list day_entry) (e : day_entry) :
  create_cycle_calendar course cycle_num = Ok cal -> In e cal ->
  (drugs e = [] /\
   day_calls format e =
     [markdown ("**Day " ++ str (day e) ++ "**")%string; write "No treatments"]) \/
  (drugs e <> [] /\
   day_calls format e =
     markdown ("**Day " ++ str (day e) ++ "** " ++ hospital)%string
     :: map (fun de => markdown (drug_text format de)) (drugs e)).
Proof.
  intros Hcal He; apply In_nth_error in He; destruct He as [i Hi].
  destruct (calendar_shape_any_input _ _ _ Hcal) as (_ & _ & _ & _ & _ & Hshape).
  destruct (Hshape i e Hi) as [_ Hiff].
  unfold day_calls; destruct (drugs e) as [| de ds] eqn:Hds.
  - left; split; [reflexivity |].
    destruct (has_treatment e); [| reflexivity].
    destruct (proj1 Hiff eq_refl eq_refl).
  - right; split; [discriminate |].
    rewrite (proj2 Hiff) by discriminate; reflexivity.
Qed.

Lemma display_sign_iff_drugs_witness :
  day_calls (fun _ => "x") (mk_day_entry 2 [] false) =
    [markdown "**Day 2**"; write "No treatments"].
Proof.
  destruct (display_sign_iff_drugs (fun _ => "x") (course_with 3 1 [pertuzumab]) 1
              (spec_resolve_cycle (course_with 3 1 [pertuzumab]))
              (mk_day_entry 2 [] false) eq_refl
              (or_intror (or_introl eq_refl))) as [[_ H] | [H _]].
  - exact H.
  - destruct (H eq_refl).
Defined.

Lemma timeline_parts (courses : list json) (now : Z) :
  regimen_ok courses now ->
  exists parts,
    timeline_data courses now = Ok (concat parts) /\
    forall i part,
      nth_error parts i = Some part ->
      (i < length courses)%nat /\
      part = spec_course_events (nth i courses JNull)
                                (spec_course_start now courses i).
Proof.
  intros Hok.
  exists (map (fun i => spec_course_events (nth i courses JNull)
                          (spec_course_start now courses i))
              (seq 0 (length courses))).
  split.
  - rewrite (timeline_complete _ _ Hok); unfold spec_timeline.
    rewrite flat_map_concat_map; reflexivity.
  - intros i part Hnth; rewrite nth_error_map in Hnth.
    destruct (nth_error (seq 0 (length courses)) i) as [j |] eqn:Hj; [| discriminate].
    assert (Hi : (i < length (seq 0 (length courses)))%nat)
      by (apply nth_error_Some; congruence).
    rewrite length_seq in Hi.
    rewrite (nth_error_nth' _ 0%nat) in Hj by (rewrite length_seq; exact Hi).
    rewrite seq_nth in Hj by exact Hi; simpl in Hj.
    injection Hj as <-; injection Hnth as <-; auto.
Qed.

(** X18.  Cycles do not overlap.  In the timeline of a regimen of the data
    model that ends within the calendar, the events come course by course,
    and every event of the course of index [i] belongs to one of its cycles
    [c], from 1 to [cycles]: it carries the label "Cycle c", starts on or
    after the start of that cycle, [(c - 1) * cycle_length] days into the
    course, and ends on or before the start of the next cycle,
    [cycle_length] days later. *)
Theorem cycles_do_not_overlap (courses : list json) (now : Z) :
  regimen_ok courses now ->
  exists parts,
    timeline_data courses now = Ok (concat parts) /\
    forall i part e,
      nth_error parts i = Some part -> In e part ->
      exists c,
        1 <= c <= int_field (nth i courses JNull) "cycles" /\
        Cycle e = ("Cycle " ++ str c)%string /\
        spec_course_start now courses i +
          (c - 1) * int_field (nth i courses JNull) "cycle_length" <= Start e /\
        Finish e <= spec_course_start now courses i +
          c * int_field (nth i courses JNull) "cycle_length".
Proof.
  intros Hok; pose proof Hok as (Hwf & Hr & _).
  destruct (timeline_parts _ _ Hok) as (parts & Hparts & Hnth).
  exists parts; split; [exact Hparts |].
  intros i part e Hi He; destruct (Hnth i part Hi) as [Hlt ->].
  pose proof (forallb_nth _ _ i Hwf Hlt) as Hw.
  pose proof (forallb_nth _ _ i Hr Hlt) as Hc.
  set (course := nth i courses JNull) in *.
  set (start := spec_course_start now courses i) in *.
  destruct (course_ok_inv _ Hw Hc)
    as (kv & nm & len & cycles & ds & Hkv & _ & Hlen & Hcy & Hds & Hd & Hdr & H1 & H2 & _).
  apply spec_course_events_inv in He; destruct He as (c & drug & d & Hcr & Hdrug & Hday & ->).
  exists c; rewrite Hkv in *.
  assert (Hl : int_field (JObj kv) "cycle_length" = len)
    by (unfold int_field, field, getitem; rewrite Hlen; reflexivity).
  assert (Hds' : drugs_of (JObj kv) = ds)
    by (unfold drugs_of, field, getitem; rewrite Hds; reflexivity).
  rewrite Hl, Hds' in *.
  rewrite forallb_forall in Hd, Hdr.
  pose proof (admin_days_in_range len drug d (wf_drug_typed _ (Hd _ Hdrug))
                (Hdr _ Hdrug) Hday) as Hrange.
  split; [exact Hcr |].
  split; [reflexivity |].
  simpl; split; nia.
Qed.

Lemma cycles_do_not_overlap_witness :
  exists parts, timeline_data [ac; th] jan_1_2024 = Ok (concat parts).
Proof.
  assert (Hok : regimen_ok [ac; th] jan_1_2024)
    by (repeat split; vm_compute; discriminate).
  destruct (cycles_do_not_overlap [ac; th] jan_1_2024 Hok) as (parts & H1 & _).
  exists parts; exact H1.
Defined.
